(** * Hourai: member validation, purge and manual override

    A shallow embedding of the validation extension of Hourai:
    - [hourai/extensions/validation/context.py]   (ValidationContext),
    - [hourai/extensions/validation/rejectors.py] (the rejectors),
    - [hourai/bot/extensions/validation/__init__.py] (purge and the
      reaction handler),
    together with the properties its specification states about them.

    Conventions.  Python objects are records; [None] is [option]; a
    [datetime] is an integer time stamp; a role, a user or a guild is named
    by its integer id; text is an ASCII [string].  A coroutine is a
    function that passes the state it touches; an exception is a value of
    [Error] returned beside the state reached when it was raised. *)

From Stdlib Require Import ZArith String Ascii.
From stdpp Require Import base option list strings gmap.

(** ** Exceptions

    The subclasses of [Exception] the modelled code raises or handles.
    [RuntimeError] stands for any other [Exception]. *)
Inductive Error : Type :=
| AssertionError
| Forbidden
| ValueError
| AttributeError
| RuntimeError.

#[global] Instance Error_eq_dec : EqDecision Error.
Proof. solve_decision. Defined.

(** Outcome of a call that may raise. *)
Inductive result (A : Type) : Type :=
| Ok (a : A)
| Raised (error : Error).
Arguments Ok {A} a.
Arguments Raised {A} error.

(** ** Platform objects *)

Record Permissions : Type := {
  manage_roles : bool;
  kick_members : bool;
  ban_members : bool
}.

Module Member.
Record t : Type := {
  id : Z;
  name : option string;
  joined_at : option Z;
  roles : list Z;
  bot : bool;
  premium_since : option Z;
  guild_permissions : Permissions
}.
End Member.

Module User.
Record t : Type := { name : string }.
End User.

(** An entry of [guild.bans()]. *)
Module BanEntry.
Record t : Type := { user : User.t; reason : option string }.
End BanEntry.

(** A record of [BanStorage]: a ban of the user in some guild. *)
Module Ban.
Record t : Type := { guild_id : Z; reason : option string }.
End Ban.

(** [guild.config.validation] *)
Record ValidationConfig : Type := {
  enabled : bool;
  role_id : option Z
}.

(** [guild.config.logging] *)
Record LoggingConfig : Type := { modlog_channel_id : Z }.

Record GuildConfig : Type := {
  validation : ValidationConfig;
  logging : LoggingConfig
}.

Module Guild.
Record t : Type := {
  id : Z;
  name : string;
  member_count : Z;
  me : Member.t;
  roles : list Z;
  channels : list Z;
  config : GuildConfig;
  validation_role : option Z;
  bans : list BanEntry.t
}.

(** [guild.get_role(role_id)] *)
Definition get_role (g : t) (role_id : Z) : option Z :=
  if decide (role_id ∈ roles g) then Some role_id else None.

(** [guild.get_channel(channel_id)] *)
Definition get_channel (g : t) (channel_id : Z) : option Z :=
  if decide (channel_id ∈ channels g) then Some channel_id else None.
End Guild.

Module Bot.
Record t : Type := {
  guilds : list Guild.t;
  (** rows [(user_id, name)] of [models.Username] *)
  usernames : list (Z * string);
  (** what [send_owner_error] delivered to the owner, oldest first *)
  owner_errors : list Error
}.

(** [bot.get_guild(guild_id)] *)
Definition get_guild (b : t) (guild_id : Z) : option Guild.t :=
  snd <$> list_find (λ g, Guild.id g = guild_id) (guilds b).

(** Modelled from the spec: [Hourai.send_owner_error] is not among the
    sources; the specification says a validator's fault is reported to an
    operator channel, here the list [owner_errors]. *)
Definition send_owner_error (error : Error) (b : t) : t :=
  {| guilds := guilds b;
     usernames := usernames b;
     owner_errors := owner_errors b ++ [error] |}.
End Bot.

(** ** ValidationContext (context.py) *)

Record ValidationContext : Type := {
  member : Member.t;
  guild : Guild.t;
  guild_config : ValidationConfig;
  role : option Z;
  approved : bool;
  approval_reasons : list string;
  rejection_reasons : list string;
  _usernames : option (gset string)
}.

(** Truth value of [guild_config.role_id]: unset and [0] are false. *)
Definition truthy_id (i : option Z) : bool :=
  match i with
  | Some z => negb (z =? 0)%Z
  | None => false
  end.

(** [ValidationContext.__init__]; [member.guild] is passed beside the
    member. *)
Definition init (m : Member.t) (g : Guild.t) (config : ValidationConfig)
  : ValidationContext :=
  {| member := m;
     guild := g;
     guild_config := config;
     role := if truthy_id (role_id config)
             then Guild.get_role g (default 0%Z (role_id config))
             else None;
     approved := true;
     approval_reasons := [];
     rejection_reasons := [];
     _usernames := None |}.

(** [add_approval_reason]: the assertion, the append, the verdict. *)
Definition add_approval_reason (reason : option string)
    (c : ValidationContext) : result ValidationContext :=
  match reason with
  | None => Raised AssertionError
  | Some r =>
      Ok {| member := member c;
            guild := guild c;
            guild_config := guild_config c;
            role := role c;
            approved := true;
            approval_reasons := approval_reasons c ++ [r];
            rejection_reasons := rejection_reasons c;
            _usernames := _usernames c |}
  end.

(** [add_rejection_reason] *)
Definition add_rejection_reason (reason : option string)
    (c : ValidationContext) : result ValidationContext :=
  match reason with
  | None => Raised AssertionError
  | Some r =>
      Ok {| member := member c;
            guild := guild c;
            guild_config := guild_config c;
            role := role c;
            approved := false;
            approval_reasons := approval_reasons c;
            rejection_reasons := rejection_reasons c ++ [r];
            _usernames := _usernames c |}
  end.

(** The state one evaluation threads: the context, the bot it refers to
    and the lines written to the module's logger. *)
Record State : Type := {
  ctx : ValidationContext;
  bot : Bot.t;
  log : list string
}.

Definition set_ctx (c : ValidationContext) (s : State) : State :=
  {| ctx := c; bot := bot s; log := log s |}.

Definition set_bot (b : Bot.t) (s : State) : State :=
  {| ctx := ctx s; bot := b; log := log s |}.

(** The property [usernames]: computed from the member's name and the
    stored names on first use, memoized in [_usernames]. *)
Definition usernames (s : State) : gset string * State :=
  match _usernames (ctx s) with
  | Some names => (names, s)
  | None =>
      let names : gset string :=
        match Member.name (member (ctx s)) with
        | Some n => {[ n ]}
        | None => ∅
        end in
      let stored :=
        snd <$> filter (λ row, row.1 = Member.id (member (ctx s)))
                       (Bot.usernames (bot s)) in
      let names := names ∪ list_to_set stored in
      (names,
       set_ctx {| member := member (ctx s);
                  guild := guild (ctx s);
                  guild_config := guild_config (ctx s);
                  role := role (ctx s);
                  approved := approved (ctx s);
                  approval_reasons := approval_reasons (ctx s);
                  rejection_reasons := rejection_reasons (ctx s);
                  _usernames := Some names |} s)
  end.

(** ** Validators

    [validate_member(ctx)] of a validator is a coroutine that reads the
    context and the bot, awaits collaborators, records reasons through the
    two methods above, and returns or raises.  A validator is the tree of
    what such a body does. *)
Inductive Validator : Type :=
| Return
| Raise (error : Error)
| AddApprovalReason (reason : option string) (k : Validator)
| AddRejectionReason (reason : option string) (k : Validator)
| Usernames (k : gset string → Validator)
| Inspect (k : ValidationContext → Bot.t → Validator)
| Await {A : Type} (call : Bot.t → A * Bot.t) (k : A → Validator).

(** Running a validator's body from a state: the state reached and the
    exception that ended it, if one did. *)
Fixpoint run (v : Validator) (s : State) : State * option Error :=
  match v with
  | Return => (s, None)
  | Raise error => (s, Some error)
  | AddApprovalReason reason k =>
      match add_approval_reason reason (ctx s) with
      | Ok c => run k (set_ctx c s)
      | Raised error => (s, Some error)
      end
  | AddRejectionReason reason k =>
      match add_rejection_reason reason (ctx s) with
      | Ok c => run k (set_ctx c s)
      | Raised error => (s, Some error)
      end
  | Usernames k => let '(names, s') := usernames s in run (k names) s'
  | Inspect k => run (k (ctx s) (bot s)) s
  | Await call k => let '(a, b) := call (bot s) in run (k a) (set_bot b s)
  end.

(** A reason a validator recorded, with its polarity. *)
Inductive Recorded : Type :=
| Approval (reason : string)
| Rejection (reason : string).

Definition is_approval (r : Recorded) : bool :=
  match r with Approval _ => true | Rejection _ => false end.

(** The reasons a validator's body records when run from a state, in the
    order of the calls. *)
Fixpoint recorded (v : Validator) (s : State) : list Recorded :=
  match v with
  | Return => []
  | Raise _ => []
  | AddApprovalReason reason k =>
      match add_approval_reason reason (ctx s), reason with
      | Ok c, Some r => Approval r :: recorded k (set_ctx c s)
      | _, _ => []
      end
  | AddRejectionReason reason k =>
      match add_rejection_reason reason (ctx s), reason with
      | Ok c, Some r => Rejection r :: recorded k (set_ctx c s)
      | _, _ => []
      end
  | Usernames k => let '(names, s') := usernames s in recorded (k names) s'
  | Inspect k => recorded (k (ctx s) (bot s)) s
  | Await call k =>
      let '(a, b) := call (bot s) in recorded (k a) (set_bot b s)
  end.

(** ** The pipeline: [ValidationContext.validate_member] *)

(** [log.exception('Error while running validator:')] *)
Definition log_exception (s : State) : State :=
  {| ctx := ctx s; bot := bot s;
     log := log s ++ ["Error while running validator:"%string] |}.

(** One turn of the loop: the [try] around the validator and its
    [except Exception] handler. *)
Definition run_validator (v : Validator) (s : State) : State :=
  match run v s with
  | (s', None) => s'
  | (s', Some error) =>
      let s'' := log_exception s' in
      set_bot (Bot.send_owner_error error (bot s'')) s''
  end.

Fixpoint validate_member (validators : list Validator) (s : State)
  : State * bool :=
  match validators with
  | [] => (s, approved (ctx s))
  | v :: rest => validate_member rest (run_validator v s)
  end.

(** What each validator of a chain recorded, in chain order. *)
Fixpoint chain_recorded (validators : list Validator) (s : State)
  : list (list Recorded) :=
  match validators with
  | [] => []
  | v :: rest => recorded v s :: chain_recorded rest (run_validator v s)
  end.

(** The record of the last validator that recorded a reason. *)
Definition last_recording (tr : list (list Recorded))
  : option (list Recorded) :=
  last (filter (λ rs, rs ≠ []) tr).

(** The polarity a validator's record leaves: that of its last reason. *)
Definition polarity (rs : list Recorded) : option bool :=
  is_approval <$> last rs.


(** ** Patterns (Python's [re])

    A compiled pattern is modelled by the strings it matches in full.  The
    three entry points of [re] differ only in which part of the value has
    to be matched. *)
Definition Pattern : Type := string → bool.

(** [regex.fullmatch(value)]: the whole value. *)
Definition re_fullmatch (regex : Pattern) (value : string) : bool :=
  regex value.

(** [regex.match(value)]: some prefix of the value. *)
Fixpoint re_match (regex : Pattern) (value : string) : bool :=
  regex EmptyString
  || match value with
     | EmptyString => false
     | String a rest => re_match (λ t, regex (String a t)) rest
     end.

(** [regex.search(value)]: some substring of the value. *)
Fixpoint re_search (regex : Pattern) (value : string) : bool :=
  re_match regex value
  || match value with
     | EmptyString => false
     | String _ rest => re_search regex rest
     end.

(** ** StringFilterRejector (rejectors.py) *)
Module StringFilterRejector.
Record t : Type := {
  prefix : string;
  filters : list (string * Pattern);
  subfield : option (ValidationContext → list string);
  match_func : Pattern → string → bool
}.

(** The constructor.  [generalize_filter] (common.py, not among the
    sources) is a parameter; [re.compile] is the identity on patterns. *)
Definition __init__ (generalize_filter : string → Pattern)
    (prefix : option string) (filters : list string) (full_match : bool)
    (subfield : option (ValidationContext → list string)) : t :=
  {| prefix := default EmptyString prefix;
     filters := (λ f, (f, generalize_filter f)) <$> filters;
     subfield := subfield;
     match_func := if full_match then re_match else re_search |}.

Definition reason (self : t) (filter_name : string) : string :=
  prefix self +:+ "Matches: `" +:+ filter_name +:+ "`".

(** The inner loop, over the filters, for one value. *)
Fixpoint for_filters (self : t) (field_value : string)
    (fs : list (string * Pattern)) (k : Validator) : Validator :=
  match fs with
  | [] => k
  | (filter_name, regex) :: fs' =>
      if match_func self regex field_value
      then AddRejectionReason (Some (reason self filter_name))
             (for_filters self field_value fs' k)
      else for_filters self field_value fs' k
  end.

(** The outer loop, over the values of the field. *)
Fixpoint for_values (self : t) (values : list string) (k : Validator)
  : Validator :=
  match values with
  | [] => k
  | field_value :: rest =>
      for_filters self field_value (filters self) (for_values self rest k)
  end.

Definition validate_member (self : t) : Validator :=
  match subfield self with
  | None => Usernames (λ names, for_values self (elements names) Return)
  | Some f => Inspect (λ c _, for_values self (f c) Return)
  end.
End StringFilterRejector.

(** ** BannedUserRejector (rejectors.py) *)
Module BannedUserRejector.
Record t : Type := { min_guild_size : Z }.

Definition _is_valid_guild (self : t) (g : option Guild.t) : bool :=
  match g with
  | Some g => bool_decide (min_guild_size self ≤ Guild.member_count g)%Z
  | None => false
  end.

Definition reason (r : string) : string :=
  "Banned on another server. Reason: `" +:+ r +:+ "`.".

(** The loop over the bans, with its two local variables, and the
    statement that follows it. *)
Fixpoint for_bans (self : t) (bans : list Ban.t) (banned : bool)
    (reasons : gset string) : Validator :=
  match bans with
  | [] =>
      if bool_decide (size reasons = 0) && banned
      then AddRejectionReason (Some "Banned on another server."%string)
             Return
      else Return
  | ban :: rest =>
      Inspect (λ _ b,
        let g := Bot.get_guild b (Ban.guild_id ban) in
        if _is_valid_guild self g then
          match Ban.reason ban with
          | Some r =>
              if bool_decide (r ∉ reasons)
              then AddRejectionReason (Some (reason r))
                     (for_bans self rest true ({[ r ]} ∪ reasons))
              else for_bans self rest true reasons
          | None => for_bans self rest true reasons
          end
        else Raise AssertionError)
  end.

(** [get_bans] is [BanStorage(bot).get_bans] (storage.py, not among the
    sources): awaited, it answers with ban records and leaves the bot in
    whatever state the other tasks brought it to meanwhile. *)
Definition validate_member
    (get_bans : Z → list Z → Bot.t → list Ban.t * Bot.t) (self : t)
  : Validator :=
  Inspect (λ c b,
    let guild_ids :=
      Guild.id <$> filter (λ g, _is_valid_guild self (Some g) = true)
                          (Bot.guilds b) in
    Await (get_bans (Member.id (member c)) guild_ids)
          (λ bans, for_bans self bans false ∅)).
End BannedUserRejector.

(** ** BannedUsernameRejector (rejectors.py) *)
Module BannedUsernameRejector.

(** [str.casefold] on ASCII text: upper-case letters to lower case. *)
Definition casefold_char (c : ascii) : ascii :=
  let n := nat_of_ascii c in
  if (65 <=? n) && (n <=? 90) then ascii_of_nat (n + 32) else c.

Fixpoint casefold (val : string) : string :=
  match val with
  | EmptyString => EmptyString
  | String c rest => String (casefold_char c) (casefold rest)
  end.

(** [str.isspace] on an ASCII character: tab, line feed, vertical tab,
    form feed, carriage return, the four separators 28 to 31, space. *)
Definition isspace (c : ascii) : bool :=
  let n := nat_of_ascii c in
  ((9 <=? n) && (n <=? 13)) || ((28 <=? n) && (n <=? 32)).

(** [val.split()]: the maximal runs of characters that are not white
    space.  [cur] is the run being read, reversed. *)
Fixpoint split_go (cur : option string) (val : string) : list string :=
  match val with
  | EmptyString => option_list (String.rev <$> cur)
  | String c rest =>
      if isspace c
      then option_list (String.rev <$> cur) ++ split_go None rest
      else split_go (Some (String c (default EmptyString cur))) rest
  end.

Definition split (val : string) : list string := split_go None val.

Definition _normalize (val : string) : string :=
  String.concat " " (split (casefold val)).

(** [d[key] = value] on a dict kept in insertion order. *)
Fixpoint dict_set (key value : string) (d : list (string * string))
  : list (string * string) :=
  match d with
  | [] => [(key, value)]
  | (k, v) :: rest =>
      if decide (k = key) then (k, value) :: rest
      else (k, v) :: dict_set key value rest
  end.

(** [{self._normalize(ban.user.name): ban.user.name for ban in bans}] *)
Definition normalized_bans (bans : list BanEntry.t)
  : list (string * string) :=
  foldl (λ d ban,
           let n := User.name (BanEntry.user ban) in
           dict_set (_normalize n) n d)
        [] bans.

Definition reason (original : string) : string :=
  "Exact username match with banned user: `" +:+ original +:+ "`.".

(** The inner loop over the items of the dict, for one normalized name:
    [continue] while the key differs, record and [break] when it is
    equal. *)
Fixpoint for_items (name : string) (items : list (string * string))
    (k : Validator) : Validator :=
  match items with
  | [] => k
  | (normalized, original) :: rest =>
      if bool_decide (name ≠ normalized) then for_items name rest k
      else AddRejectionReason (Some (reason original)) k
  end.

(** The outer loop over the usernames. *)
Fixpoint for_usernames (items : list (string * string))
    (names : list string) : Validator :=
  match names with
  | [] => Return
  | username :: rest =>
      for_items (_normalize username) items (for_usernames items rest)
  end.

Definition validate_member : Validator :=
  Inspect (λ c _,
    if negb (ban_members (Member.guild_permissions (Guild.me (guild c))))
    then Return
    else
      let bans := Guild.bans (guild c) in
      let items := normalized_bans bans in
      Usernames (λ names, for_usernames items (elements names))).
End BannedUsernameRejector.

(** ** The platform

    What the chat platform holds for one guild and what the bot did to it:
    the membership, the bans, the messages of its channels, the notes sent
    to the moderation log, the events dispatched, the requests made (in
    order), the answer the platform gives to each request, and the lines
    of the extension's logger. *)
Inductive Call : Type :=
| FetchMembers
| SendDm (user_id : Z)
| Kick (user_id : Z)
| BanMember (user_id : Z)
| AddRoles (user_id : Z) (role : Z).

(** A note sent with [guild.modlog.send], by its content. *)
Inductive Note : Type :=
| ManuallyVerified (user target : Z)
| ApproveAttempted
| Kicked (user target : Z)
| KickFailed (target : Z)
| Banned (user target : Z)
| BanFailed (target : Z).

(** A line of [log.info], by its content. *)
Inductive LogLine : Type :=
| Purged (member_id guild_id : Z)
| MemberNotFound (target_id : Z)
| VerifiedManually (target user : Z)
| KickedManually (target user : Z)
| BannedManually (target user : Z).

Module Embed.
Record t : Type := { footer_text : string }.
End Embed.

Module Message.
Record t : Type := {
  id : Z;
  channel_id : Z;
  author : Z;
  embeds : list Embed.t
}.
End Message.

Module Platform.
Record t : Type := {
  members : list Member.t;
  banned : list Z;
  messages : list Message.t;
  modlog : list Note;
  dispatched : list (string * Z);
  calls : list Call;
  outcome : Call → option Error;
  info : list LogLine
}.

Definition set_members (ms : list Member.t) (w : t) : t :=
  {| members := ms; banned := banned w; messages := messages w;
     modlog := modlog w; dispatched := dispatched w; calls := calls w;
     outcome := outcome w; info := info w |}.

(** A request to the platform: it is recorded and answered. *)
Definition request (c : Call) (w : t) : t * option Error :=
  ({| members := members w; banned := banned w; messages := messages w;
      modlog := modlog w; dispatched := dispatched w;
      calls := calls w ++ [c];
      outcome := outcome w; info := info w |},
   outcome w c).

Definition log_info (l : LogLine) (w : t) : t :=
  {| members := members w; banned := banned w; messages := messages w;
     modlog := modlog w; dispatched := dispatched w; calls := calls w;
     outcome := outcome w; info := info w ++ [l] |}.

(** [guild.modlog.send(note)] *)
Definition modlog_send (n : Note) (w : t) : t :=
  {| members := members w; banned := banned w; messages := messages w;
     modlog := modlog w ++ [n]; dispatched := dispatched w;
     calls := calls w; outcome := outcome w; info := info w |}.

(** [bot.dispatch(event, member)] *)
Definition dispatch (event : string) (m : Member.t) (w : t) : t :=
  {| members := members w; banned := banned w; messages := messages w;
     modlog := modlog w;
     dispatched := dispatched w ++ [(event, Member.id m)];
     calls := calls w; outcome := outcome w; info := info w |}.

(** [utils.send_dm(member, text)] *)
Definition send_dm (m : Member.t) (w : t) : t * option Error :=
  request (SendDm (Member.id m)) w.

(** [member.kick(reason=...)]: granted, the member leaves the guild. *)
Definition kick (m : Member.t) (w : t) : t * option Error :=
  match request (Kick (Member.id m)) w with
  | (w', None) =>
      (set_members
         (filter (λ x, Member.id x ≠ Member.id m) (members w')) w',
       None)
  | (w', Some error) => (w', Some error)
  end.

(** [member.ban(reason=...)]: granted, the member leaves the guild and
    is on its ban list. *)
Definition ban (m : Member.t) (w : t) : t * option Error :=
  match request (BanMember (Member.id m)) w with
  | (w', None) =>
      ({| members := filter (λ x, Member.id x ≠ Member.id m) (members w');
          banned := banned w' ++ [Member.id m];
          messages := messages w'; modlog := modlog w';
          dispatched := dispatched w'; calls := calls w';
          outcome := outcome w'; info := info w' |},
       None)
  | (w', Some error) => (w', Some error)
  end.

Definition with_role (role : Z) (m : Member.t) : Member.t :=
  {| Member.id := Member.id m; Member.name := Member.name m;
     Member.joined_at := Member.joined_at m;
     Member.roles := Member.roles m ++ [role];
     Member.bot := Member.bot m;
     Member.premium_since := Member.premium_since m;
     Member.guild_permissions := Member.guild_permissions m |}.

(** [member.add_roles(role)]: granted, the member holds the role. *)
Definition add_roles (m : Member.t) (role : Z) (w : t) : t * option Error :=
  match request (AddRoles (Member.id m) role) w with
  | (w', None) =>
      (set_members
         ((λ x, if decide (Member.id x = Member.id m)
                then with_role role x else x) <$> members w') w',
       None)
  | (w', Some error) => (w', Some error)
  end.

(** [guild.fetch_members(limit=None)]: the membership at the time of the
    request, in the order the platform lists it. *)
Definition fetch_members (w : t) : t * list Member.t :=
  ((request FetchMembers w).1, members w).

(** [channel.fetch_message(message_id)]; a message that does not exist
    is an error of the platform. *)
Definition fetch_message (channel_id message_id : Z) (w : t)
  : result Message.t :=
  match list_find (λ m, Message.channel_id m = channel_id
                        ∧ Message.id m = message_id) (messages w) with
  | Some (_, m) => Ok m
  | None => Raised RuntimeError
  end.

(** Modelled from the spec: [Hourai.get_member_async] is not among the
    sources; the specification has the handler resolve the target user
    from its id and drop the signal when it cannot, so the call answers
    with the member of that id, if the guild has one. *)
Definition get_member_async (target_id : Z) (w : t) : option Member.t :=
  snd <$> list_find (λ m, Member.id m = target_id) (members w).
End Platform.

(** ** Purge ([Validation.purge_guild]) *)
Module Purge.

Definition _is_kickable (role : Z) (cutoff_time : Z) (member : Member.t)
  : bool :=
  let is_new :=
    match Member.joined_at member with
    | Some joined_at => bool_decide (cutoff_time ≤ joined_at)%Z
    | None => false
    end in
  let checks :=
    [ bool_decide (role ∈ Member.roles member);
      is_new;
      Member.bot member;
      bool_decide (Member.premium_since member ≠ None) ] in
  negb (existsb (λ c : bool, c) checks).

Definition _kick_member (g : Guild.t) (member : Member.t)
    (w : Platform.t) : Platform.t * option Error :=
  let tried :=
    match Platform.send_dm member w with
    | (w1, None) => Platform.kick member w1
    | (w1, Some error) => (w1, Some error)
    end in
  match tried with
  | (w2, None) | (w2, Some Forbidden) =>
      (Platform.log_info (Purged (Member.id member) (Guild.id g)) w2, None)
  | (w2, Some error) => (w2, Some error)
  end.

(** [asyncio.gather] over the tasks: every task runs; the first exception, if
    any, is the one the caller sees. *)
Fixpoint gather (g : Guild.t) (tasks : list Member.t) (w : Platform.t)
  : Platform.t * option Error :=
  match tasks with
  | [] => (w, None)
  | member :: rest =>
      let '(w1, r1) := _kick_member g member w in
      let '(w2, r2) := gather g rest w1 in
      (w2, match r1 with Some error => Some error | None => r2 end)
  end.

(** The loop over the fetched members and the statements after it. *)
Fixpoint for_members (g : Guild.t) (role cutoff_time : Z) (dry_run : bool)
    (fetched : list Member.t) (count : nat) (tasks : list Member.t)
    (w : Platform.t) : Platform.t * result nat :=
  match fetched with
  | [] =>
      if bool_decide (0 < length tasks) then
        match gather g tasks w with
        | (w', None) => (w', Ok count)
        | (w', Some error) => (w', Raised error)
        end
      else (w, Ok count)
  | member :: rest =>
      if negb (_is_kickable role cutoff_time member) then
        for_members g role cutoff_time dry_run rest count tasks w
      else
        let count := S count in
        let tasks := if negb dry_run then tasks ++ [member] else tasks in
        if bool_decide (5 < length tasks) then
          match gather g tasks w with
          | (w', None) =>
              for_members g role cutoff_time dry_run rest count [] w'
          | (w', Some error) => (w', Raised error)
          end
        else for_members g role cutoff_time dry_run rest count tasks w
  end.

(** [purge_guild(guild, cutoff_time, dry_run)]; [Ok None] is the bare
    [return]. *)
Definition purge_guild (g : Guild.t) (cutoff_time : Z) (dry_run : bool)
    (w : Platform.t) : Platform.t * result (option nat) :=
  match Guild.validation_role g with
  | None => (w, Ok None)
  | Some role =>
      if negb (kick_members (Member.guild_permissions (Guild.me g)))
      then (w, Ok None)
      else
        let '(w1, fetched) := Platform.fetch_members w in
        match for_members g role cutoff_time dry_run fetched 0 [] w1 with
        | (w', Ok count) => (w', Ok (Some count))
        | (w', Raised error) => (w', Raised error)
        end
  end.
End Purge.

(** ** Manual override ([Validation.on_raw_reaction_add]) *)

(** The payload of a raw reaction event.  [member] is the reacting
    member together with its [guild] attribute; it is [None] for a
    reaction outside a guild. *)
Module Payload.
Record t : Type := {
  guild_id : option Z;
  channel_id : Z;
  message_id : Z;
  member : option (Member.t * Guild.t);
  emoji_name : string
}.
End Payload.

Module Override.

Definition APPROVE_REACTION : string := "✅".
Definition KICK_REACTION : string := "❌".
Definition BAN_REACTION : string := "☠".
Definition MODLOG_REACTIONS : list string :=
  [APPROVE_REACTION; KICK_REACTION; BAN_REACTION].

(** [ValidationContext.apply_role] (context.py) *)
Definition apply_role (c : ValidationContext) (w : Platform.t)
  : Platform.t * option Error :=
  match role c with
  | Some r =>
      if approved c && bool_decide (r ∉ Member.roles (member c))
      then Platform.add_roles (member c) r w
      else (w, None)
  | None => (w, None)
  end.

Definition verify_member (c : ValidationContext) (w : Platform.t)
  : Platform.t * option Error :=
  match apply_role c w with
  | (w1, None) =>
      (Platform.dispatch
         ("verify_" +:+ (if approved c then "accept" else "reject"))
         (member c) w1,
       None)
  | (w1, Some error) => (w1, Some error)
  end.

Definition approve_member_by_reaction (g : Guild.t) (user target : Member.t)
    (w : Platform.t) : Platform.t * option Error :=
  let c := init target g (validation (Guild.config g)) in
  let tried :=
    match verify_member c w with
    | (w1, None) =>
        (Platform.log_info
           (VerifiedManually (Member.id target) (Member.id user))
           (Platform.modlog_send
              (ManuallyVerified (Member.id user) (Member.id target)) w1),
         None)
    | (w1, Some error) => (w1, Some error)
    end in
  match tried with
  | (w2, Some Forbidden) => (Platform.modlog_send ApproveAttempted w2, None)
  | other => other
  end.

Definition kick_member_by_reaction (g : Guild.t) (user target : Member.t)
    (w : Platform.t) : Platform.t * option Error :=
  let tried :=
    match Platform.kick target w with
    | (w1, None) =>
        (Platform.log_info
           (KickedManually (Member.id target) (Member.id user))
           (Platform.modlog_send
              (Kicked (Member.id user) (Member.id target)) w1),
         None)
    | (w1, Some error) => (w1, Some error)
    end in
  match tried with
  | (w2, Some Forbidden) =>
      (Platform.modlog_send (KickFailed (Member.id target)) w2, None)
  | other => other
  end.

Definition ban_member_by_reaction (g : Guild.t) (user target : Member.t)
    (w : Platform.t) : Platform.t * option Error :=
  let tried :=
    match Platform.ban target w with
    | (w1, None) =>
        (Platform.log_info
           (BannedManually (Member.id target) (Member.id user))
           (Platform.modlog_send
              (Banned (Member.id user) (Member.id target)) w1),
         None)
    | (w1, Some error) => (w1, Some error)
    end in
  match tried with
  | (w2, Some Forbidden) =>
      (Platform.modlog_send (BanFailed (Member.id target)) w2, None)
  | other => other
  end.

Definition get_message (b : Bot.t) (payload : Payload.t) (w : Platform.t)
  : result (option Message.t) :=
  match Payload.guild_id payload ≫= Bot.get_guild b with
  | None => Ok None
  | Some g =>
      if bool_decide (Member.id ∘ fst <$> Payload.member payload
                      = Some (Member.id (Guild.me g)))
         || negb (bool_decide (Payload.emoji_name payload ∈ MODLOG_REACTIONS))
      then Ok None
      else
        match Guild.get_channel g (Payload.channel_id payload) with
        | None => Ok None
        | Some channel =>
            if bool_decide
                 (modlog_channel_id (logging (Guild.config g)) ≠ channel)
            then Ok None
            else
              match Platform.fetch_message channel
                      (Payload.message_id payload) w with
              | Ok message => Ok (Some message)
              | Raised error => Raised error
              end
        end
  end.

(** The handler an override is mapped to, with the permission of the
    reacting member it asks for: the dict of [on_raw_reaction_add]. *)
Definition Handler : Type :=
  Guild.t → Member.t → Member.t → Platform.t → Platform.t * option Error.

Definition action (perms : Permissions) (emoji_name : string)
  : option (Handler * bool) :=
  if decide (emoji_name = APPROVE_REACTION)
  then Some (approve_member_by_reaction, manage_roles perms)
  else if decide (emoji_name = KICK_REACTION)
  then Some (kick_member_by_reaction, kick_members perms)
  else if decide (emoji_name = BAN_REACTION)
  then Some (ban_member_by_reaction, ban_members perms)
  else None.

(** [int16] is Python's [int(text, 16)], [None] for its [ValueError]. *)
Definition on_raw_reaction_add (int16 : string → option Z) (b : Bot.t)
    (payload : Payload.t) (w : Platform.t) : Platform.t * option Error :=
  match get_message b payload w with
  | Raised error => (w, Some error)
  | Ok message =>
      match Payload.member payload with
      | None => (w, Some AttributeError)
      | Some (user, g) =>
          match message with
          | None => (w, None)
          | Some message =>
              match Message.embeds message with
              | [] => (w, None)
              | embed :: _ =>
                  if bool_decide
                       (Message.author message ≠ Member.id (Guild.me g))
                  then (w, None)
                  else
                    match int16 (Embed.footer_text embed) with
                    | None => (w, None)
                    | Some target_id =>
                        match Platform.get_member_async target_id w with
                        | None =>
                            (Platform.log_info (MemberNotFound target_id) w,
                             None)
                        | Some target =>
                            let perms := Member.guild_permissions user in
                            match action perms (Payload.emoji_name payload)
                            with
                            | None => (w, None)
                            | Some (func, perm) =>
                                if perm then func g user target w
                                else (w, None)
                            end
                        end
                    end
              end
          end
      end
  end.
End Override.

(** ** Notions used to state the properties *)

(** The approval reasons among what was recorded, in order. *)
Definition approvals (rs : list Recorded) : list string :=
  omap (λ r, match r with Approval x => Some x | Rejection _ => None end) rs.

(** The rejection reasons among what was recorded, in order. *)
Definition rejections (rs : list Recorded) : list string :=
  omap (λ r, match r with Rejection x => Some x | Approval _ => None end) rs.

(** The state an evaluation starts from: a context fresh from the
    constructor. *)
Definition fresh (m : Member.t) (g : Guild.t) (config : ValidationConfig)
    (b : Bot.t) : State :=
  {| ctx := init m g config; bot := b; log := [] |}.

(** ** Sample data *)

Definition no_permissions : Permissions :=
  {| manage_roles := false; kick_members := false; ban_members := false |}.

Definition all_permissions : Permissions :=
  {| manage_roles := true; kick_members := true; ban_members := true |}.

(** The bot's own member in the sample guild. *)
Definition sample_me : Member.t :=
  {| Member.id := 1; Member.name := Some "Hourai"%string;
     Member.joined_at := Some 0%Z; Member.roles := [];
     Member.bot := true; Member.premium_since := None;
     Member.guild_permissions := all_permissions |}.

(** A guild of 200 members whose trust role is role 7 and whose
    moderation log is channel 50. *)
Definition sample_guild : Guild.t :=
  {| Guild.id := 10; Guild.name := "Gensokyo"; Guild.member_count := 200;
     Guild.me := sample_me; Guild.roles := [7%Z]; Guild.channels := [50%Z];
     Guild.config :=
       {| validation := {| enabled := true; role_id := Some 7%Z |};
          logging := {| modlog_channel_id := 50 |} |};
     Guild.validation_role := Some 7%Z;
     Guild.bans := [] |}.

(** A member who joined at time 100 and holds no role. *)
Definition sample_member : Member.t :=
  {| Member.id := 4; Member.name := Some "Alice"%string;
     Member.joined_at := Some 100%Z; Member.roles := [];
     Member.bot := false; Member.premium_since := None;
     Member.guild_permissions := no_permissions |}.

Definition sample_bot : Bot.t :=
  {| Bot.guilds := [sample_guild]; Bot.usernames := [];
     Bot.owner_errors := [] |}.

Definition sample_state : State :=
  fresh sample_member sample_guild (validation (Guild.config sample_guild))
        sample_bot.

(** Modelled from the spec: [generalize_filter] (common.py) is not among
    the sources; the specification describes its result as a permissive,
    case-insensitive pattern built from the literal filter string.  This
    is the least permissive such pattern: it matches the characters of the
    filter, in either case, and nothing else. *)
Definition generalize_filter (filter_value : string) : Pattern :=
  λ value,
    bool_decide (BannedUsernameRejector.casefold value
                 = BannedUsernameRejector.casefold filter_value).

(** [StringFilterRejector(prefix='Likely user bot. ', full_match=True,
    filters=['bot'])], as the chain builds its full-match filter. *)
Definition sample_full_match_rejector : StringFilterRejector.t :=
  StringFilterRejector.__init__ generalize_filter
    (Some "Likely user bot. "%string) ["bot"%string] true None.

(** A member whose only known name is [Bot4711]. *)
Definition sample_bot4711 : Member.t :=
  {| Member.id := 5; Member.name := Some "Bot4711"%string;
     Member.joined_at := Some 100%Z; Member.roles := [];
     Member.bot := false; Member.premium_since := None;
     Member.guild_permissions := no_permissions |}.

(** The guild of a ban record still passes [_is_valid_guild] when the
    record is read from bot [b]. *)
Definition valid_at (self : BannedUserRejector.t) (b : Bot.t) (ban : Ban.t)
  : Prop :=
  BannedUserRejector._is_valid_guild self
    (Bot.get_guild b (Ban.guild_id ban)) = true.

(** The reason recorded for a banned user no ban of whom has a reason. *)
Definition generic_rejection : Recorded :=
  Rejection "Banned on another server.".

(** A second guild, of exactly 150 members. *)
Definition sample_guild_150 : Guild.t :=
  {| Guild.id := 20; Guild.name := "Eientei"; Guild.member_count := 150;
     Guild.me := sample_me; Guild.roles := []; Guild.channels := [];
     Guild.config :=
       {| validation := {| enabled := false; role_id := None |};
          logging := {| modlog_channel_id := 0 |} |};
     Guild.validation_role := None;
     Guild.bans := [] |}.

(** The same guild one member later: 149 members. *)
Definition sample_guild_149 : Guild.t :=
  {| Guild.id := 20; Guild.name := "Eientei"; Guild.member_count := 149;
     Guild.me := sample_me; Guild.roles := []; Guild.channels := [];
     Guild.config :=
       {| validation := {| enabled := false; role_id := None |};
          logging := {| modlog_channel_id := 0 |} |};
     Guild.validation_role := None;
     Guild.bans := [] |}.

Definition sample_bot_two_guilds : Bot.t :=
  {| Bot.guilds := [sample_guild_150; sample_guild]; Bot.usernames := [];
     Bot.owner_errors := [] |}.

(** A ban storage that knows the user banned in both guilds; while it is
    awaited a member leaves the smaller guild. *)
Definition sample_get_bans_shrinking (user_id : Z) (guild_ids : list Z)
    (b : Bot.t) : list Ban.t * Bot.t :=
  (filter (λ ban, Ban.guild_id ban ∈ guild_ids)
     [ {| Ban.guild_id := 20; Ban.reason := Some "spam"%string |};
       {| Ban.guild_id := 10; Ban.reason := Some "raid"%string |} ],
   {| Bot.guilds := [sample_guild_149; sample_guild];
      Bot.usernames := Bot.usernames b;
      Bot.owner_errors := Bot.owner_errors b |}).

(** A ban storage that knows the user banned three times, twice for the
    same reason, in guilds that stay as they are. *)
Definition sample_get_bans (user_id : Z) (guild_ids : list Z) (b : Bot.t)
  : list Ban.t * Bot.t :=
  (filter (λ ban, Ban.guild_id ban ∈ guild_ids)
     [ {| Ban.guild_id := 20; Ban.reason := Some "spam"%string |};
       {| Ban.guild_id := 10; Ban.reason := Some "spam"%string |};
       {| Ban.guild_id := 10; Ban.reason := None |} ],
   b).

Definition sample_banned_user_rejector : BannedUserRejector.t :=
  {| BannedUserRejector.min_guild_size := 150 |}.

Definition sample_state_two_guilds : State :=
  fresh sample_member sample_guild (validation (Guild.config sample_guild))
        sample_bot_two_guilds.

(** [d.get(key)] on a dict kept as a list of items. *)
Definition dict_get (key : string) (d : list (string * string))
  : option string :=
  (λ found, found.2.2) <$> list_find (λ kv, kv.1 = key) d.

(** The sample guild with two banned users and the right to read its
    ban list, or without that right. *)
Definition sample_guild_with_bans (may_read_bans : bool) : Guild.t :=
  {| Guild.id := 10; Guild.name := "Gensokyo"; Guild.member_count := 200;
     Guild.me :=
       {| Member.id := 1; Member.name := Some "Hourai"%string;
          Member.joined_at := Some 0%Z; Member.roles := [];
          Member.bot := true; Member.premium_since := None;
          Member.guild_permissions :=
            {| manage_roles := true; kick_members := true;
               ban_members := may_read_bans |} |};
     Guild.roles := [7%Z]; Guild.channels := [50%Z];
     Guild.config :=
       {| validation := {| enabled := true; role_id := Some 7%Z |};
          logging := {| modlog_channel_id := 50 |} |};
     Guild.validation_role := Some 7%Z;
     Guild.bans :=
       [ {| BanEntry.user := {| User.name := "Evil  Bob" |};
            BanEntry.reason := None |};
         {| BanEntry.user := {| User.name := "Mallory" |};
            BanEntry.reason := Some "raid"%string |} ] |}.

(** A member with the given current name and no stored names. *)
Definition sample_named (n : string) : Member.t :=
  {| Member.id := 6; Member.name := Some n;
     Member.joined_at := Some 100%Z; Member.roles := [];
     Member.bot := false; Member.premium_since := None;
     Member.guild_permissions := no_permissions |}.

Definition sample_state_named (n : string) (may_read_bans : bool) : State :=
  fresh (sample_named n) (sample_guild_with_bans may_read_bans)
        {| enabled := true; role_id := Some 7%Z |} sample_bot.

(** The platform grants the notice to a member and the kick of it. *)
Definition granted (w : Platform.t) (m : Member.t) : bool :=
  bool_decide (Platform.outcome w (SendDm (Member.id m)) = None
               ∧ Platform.outcome w (Kick (Member.id m)) = None).

(** A request is answered without an error, or refused with
    [discord.Forbidden]. *)
Definition granted_or_forbidden (o : option Error) : Prop :=
  o = None ∨ o = Some Forbidden.

(** The members whose id is not among [ids]. *)
Definition without (ids : list Z) (ms : list Member.t) : list Member.t :=
  filter (λ x, Member.id x ∉ ids) ms.

(** The members of a fetched list that [_is_kickable] accepts. *)
Definition kickable (role cutoff_time : Z) (ms : list Member.t)
  : list Member.t :=
  filter (λ m, Purge._is_kickable role cutoff_time m = true) ms.

(** A member holding the trust role, a bot, a booster, a member who
    joined long ago and never got the role, and a member whose join time
    the platform does not tell. *)
Definition sample_trusted : Member.t :=
  {| Member.id := 11; Member.name := Some "Reimu"%string;
     Member.joined_at := Some 100%Z; Member.roles := [7%Z];
     Member.bot := false; Member.premium_since := None;
     Member.guild_permissions := no_permissions |}.

Definition sample_bot_member : Member.t :=
  {| Member.id := 12; Member.name := Some "Ran"%string;
     Member.joined_at := Some 100%Z; Member.roles := [];
     Member.bot := true; Member.premium_since := None;
     Member.guild_permissions := no_permissions |}.

Definition sample_booster : Member.t :=
  {| Member.id := 13; Member.name := Some "Yukari"%string;
     Member.joined_at := Some 100%Z; Member.roles := [];
     Member.bot := false; Member.premium_since := Some 200%Z;
     Member.guild_permissions := no_permissions |}.

Definition sample_stale : Member.t :=
  {| Member.id := 14; Member.name := Some "Cirno"%string;
     Member.joined_at := Some 100%Z; Member.roles := [];
     Member.bot := false; Member.premium_since := None;
     Member.guild_permissions := no_permissions |}.

Definition sample_no_join_time : Member.t :=
  {| Member.id := 15; Member.name := Some "Koishi"%string;
     Member.joined_at := None; Member.roles := [];
     Member.bot := false; Member.premium_since := None;
     Member.guild_permissions := no_permissions |}.

(** A platform holding the given members and answering as told, on
    which nothing happened yet. *)
Definition sample_platform (ms : list Member.t)
    (outcome : Call → option Error) : Platform.t :=
  {| Platform.members := ms; Platform.banned := [];
     Platform.messages := []; Platform.modlog := [];
     Platform.dispatched := []; Platform.calls := [];
     Platform.outcome := outcome; Platform.info := [] |}.

(** A platform that grants every request. *)
Definition grant_all (c : Call) : option Error := None.

(** A platform that refuses every kick and grants the rest. *)
Definition forbid_kicks (c : Call) : option Error :=
  match c with
  | Kick _ => Some Forbidden
  | _ => None
  end.

(** The sample guild without a trust role. *)
Definition sample_guild_no_role : Guild.t :=
  {| Guild.id := 10; Guild.name := "Gensokyo"; Guild.member_count := 200;
     Guild.me := sample_me; Guild.roles := [7%Z]; Guild.channels := [50%Z];
     Guild.config :=
       {| validation := {| enabled := true; role_id := None |};
          logging := {| modlog_channel_id := 50 |} |};
     Guild.validation_role := None;
     Guild.bans := [] |}.





(** The reacting member holds the permission the reaction asks for:
    role management to approve, kick to kick, ban to ban. *)
Definition holds_permission_for (emoji_name : string) (perms : Permissions)
  : Prop :=
  (emoji_name = Override.APPROVE_REACTION ∧ manage_roles perms = true)
  ∨ (emoji_name = Override.KICK_REACTION ∧ kick_members perms = true)
  ∨ (emoji_name = Override.BAN_REACTION ∧ ban_members perms = true).

(** Two states of the platform that differ at most in the lines of the
    logger: same members, bans, messages, moderation log, dispatched
    events and requests. *)
Definition same_platform (w w' : Platform.t) : Prop :=
  Platform.members w' = Platform.members w
  ∧ Platform.banned w' = Platform.banned w
  ∧ Platform.messages w' = Platform.messages w
  ∧ Platform.modlog w' = Platform.modlog w
  ∧ Platform.dispatched w' = Platform.dispatched w
  ∧ Platform.calls w' = Platform.calls w.

(** A reading of hexadecimal digits, for the samples. *)
Definition hex_digit (c : ascii) : option Z :=
  let n := nat_of_ascii c in
  if (48 <=? n) && (n <=? 57) then Some (Z.of_nat (n - 48))
  else if (97 <=? n) && (n <=? 102) then Some (Z.of_nat (n - 87))
  else if (65 <=? n) && (n <=? 70) then Some (Z.of_nat (n - 55))
  else None.

Fixpoint hex_go (acc : Z) (text : string) : option Z :=
  match text with
  | EmptyString => Some acc
  | String c rest =>
      match hex_digit c with
      | Some d => hex_go (16 * acc + d)%Z rest
      | None => None
      end
  end.

Definition sample_int16 (text : string) : option Z :=
  match text with
  | EmptyString => None
  | _ => hex_go 0 text
  end.

(** A moderator of the sample guild, with or without the permission to
    kick. *)
Definition sample_moderator (may_kick : bool) : Member.t :=
  {| Member.id := 2; Member.name := Some "Sakuya"%string;
     Member.joined_at := Some 10%Z; Member.roles := [7%Z];
     Member.bot := false; Member.premium_since := None;
     Member.guild_permissions :=
       {| manage_roles := false; kick_members := may_kick;
          ban_members := false |} |}.

(** The audit message of the stale sample member (id 14, [e] in base
    16), sent by the bot to the moderation log. *)
Definition sample_audit_message : Message.t :=
  {| Message.id := 900; Message.channel_id := 50; Message.author := 1;
     Message.embeds := [ {| Embed.footer_text := "e" |} ] |}.

Definition sample_override_platform (may_kick : bool) : Platform.t :=
  {| Platform.members := [sample_stale; sample_moderator may_kick];
     Platform.banned := [];
     Platform.messages := [sample_audit_message];
     Platform.modlog := []; Platform.dispatched := [];
     Platform.calls := []; Platform.outcome := grant_all;
     Platform.info := [] |}.

(** The moderator reacts to the audit message with the kick reaction. *)
Definition sample_kick_payload (may_kick : bool) : Payload.t :=
  {| Payload.guild_id := Some 10%Z; Payload.channel_id := 50;
     Payload.message_id := 900;
     Payload.member := Some (sample_moderator may_kick, sample_guild);
     Payload.emoji_name := Override.KICK_REACTION |}.

(** ** Further notions *)

(** The exceptions the validators of a chain ended with, in chain
    order. *)
Fixpoint chain_faults (validators : list Validator) (s : State)
  : list Error :=
  match validators with
  | [] => []
  | v :: rest =>
      match (run v s).2 with
      | Some error => error :: chain_faults rest (run_validator v s)
      | None => chain_faults rest (run_validator v s)
      end
  end.

(** The values a string filter looks at: the field it was given, or the
    known usernames. *)
Definition field_values (self : StringFilterRejector.t) (s : State)
  : list string :=
  match StringFilterRejector.subfield self with
  | None => elements (usernames s).1
  | Some f => f (ctx s)
  end.

(** The names of the filters of a rejector that match a value, in the
    order of the filters. *)
Definition matching_filters (self : StringFilterRejector.t) (value : string)
  : list string :=
  (filter (λ fr, StringFilterRejector.match_func self fr.2 value = true)
          (StringFilterRejector.filters self)).*1.

(** ** Announce ([Announce.__toggle_channel], announce.py) *)
Module Announce.

(** [list.remove(x)]: the first occurrence goes. *)
Fixpoint remove (x : Z) (l : list Z) : list Z :=
  match l with
  | [] => []
  | y :: rest => if decide (y = x) then rest else y :: remove x rest
  end.

(** [__toggle_channel(ctx, config)]: [channel_id] is [ctx.channel.id],
    [channel_ids] is [config.channel_ids]; the list as it is left, and
    the value returned. *)
Definition __toggle_channel (channel_id : Z) (channel_ids : list Z)
  : list Z * bool :=
  if decide (channel_id ∈ channel_ids)
  then (remove channel_id channel_ids, false)
  else (channel_ids ++ [channel_id], true).
End Announce.

(** ** The command [validation propagate] *)
Module Propagate.

(** What the command tells the channel, by its content; [Ongoing] and
    [Complete] are edits of the message [Propagating]. *)
Inductive Reply : Type :=
| NoConfigFound
| RoleNotFound
| Propagating
| Ongoing (total_processed : nat)
| Complete.

(** [updated > last_update + 10], where [None] is [float('-inf')]. *)
Definition due (updated : nat) (last_update : option nat) : bool :=
  match last_update with
  | None => true
  | Some l => bool_decide (l + 10 < updated)
  end.

(** The loop over the fetched members. *)
Fixpoint for_members (role : Z) (fetched : list Member.t)
    (last_update : option nat) (total_processed updated : nat)
    (w : Platform.t) (replies : list Reply)
  : Platform.t * list Reply * option Error :=
  match fetched with
  | [] => (w, replies, None)
  | member :: rest =>
      let total_processed := S total_processed in
      let '(w1, raised, updated) :=
        if bool_decide (role ∉ Member.roles member) then
          match Platform.add_roles member role w with
          | (w1, None) => (w1, None, S updated)
          | (w1, Some error) => (w1, Some error, updated)
          end
        else (w, None, updated) in
      match raised with
      | Some error => (w1, replies, Some error)
      | None =>
          if due updated last_update
          then for_members role rest (Some updated) total_processed updated
                 w1 (replies ++ [Ongoing total_processed])
          else for_members role rest last_update total_processed updated
                 w1 replies
      end
  end.

(** What the command leaves: the platform, what it told the channel,
    whether it cleared [kick_unvalidated_users_after] and flushed the
    configuration, and the exception it ended with, if any. *)
Record t : Type := {
  platform : Platform.t;
  replies : list Reply;
  cleared : bool;
  raised : option Error
}.

(** [validation_propagate(ctx)], in the guild [g] of the context. *)
Definition validation_propagate (g : Guild.t) (w : Platform.t) : t :=
  match role_id (validation (Guild.config g)) with
  | None =>
      {| platform := w; replies := [NoConfigFound]; cleared := false;
         raised := None |}
  | Some configured =>
      match Guild.get_role g configured with
      | None =>
          {| platform := w; replies := [RoleNotFound]; cleared := true;
             raised := None |}
      | Some role =>
          let '(w1, fetched) := Platform.fetch_members w in
          match for_members role fetched None 0 0 w1 [Propagating] with
          | (w2, said, None) =>
              {| platform := w2; replies := said ++ [Complete];
                 cleared := false; raised := None |}
          | (w2, said, Some error) =>
              {| platform := w2; replies := said; cleared := false;
                 raised := Some error |}
          end
      end
  end.
End Propagate.

(** ** The command [validation purge] *)
Module PurgeCommand.

(** What the command tells the channel, by its content. *)
Inductive Reply : Type :=
| NoRoleConfigured
| ContinueQuestion (count : option nat)
| PurgedUsers (count : option nat)
| Cancelled.

(** [validation_purge(ctx, lookback)] in guild [g]; [check_time] is
    [datetime.utcnow()] and [confirmed] the answer
    [utils.wait_for_confirmation] comes back with. *)
Definition validation_purge (g : Guild.t) (check_time lookback : Z)
    (confirmed : bool) (w : Platform.t)
  : Platform.t * list Reply * option Error :=
  let said :=
    match Guild.validation_role g with
    | None => [NoRoleConfigured]
    | Some _ => []
    end in
  match Purge.purge_guild g (check_time - lookback) true w with
  | (w1, Raised error) => (w1, said, Some error)
  | (w1, Ok count) =>
      let said := said ++ [ContinueQuestion count] in
      if confirmed then
        match Purge.purge_guild g (check_time - lookback) false w1 with
        | (w2, Raised error) => (w2, said, Some error)
        | (w2, Ok _) => (w2, said ++ [PurgedUsers count], None)
        end
      else (w1, said ++ [Cancelled], None)
  end.
End PurgeCommand.

(** ** Joining ([Validation.on_join], with
    [ValidationContext.send_modlog_message]) *)
Module Join.

(** The first line of the audit message. *)
Inductive Header : Type :=
| VerifiedUser (member_id : Z)
| RequiresManualVerification (name : option string) (member_id : Z).

(** The content of the audit message: its first line and its two
    sections, each present when its list of reasons is not empty. *)
Record ModlogMessage : Type := {
  header : Header;
  approved_for : option (list string);
  rejected_for : option (list string)
}.

(** The content [send_modlog_message] composes from the context. *)
Definition compose (c : ValidationContext) : ModlogMessage :=
  {| header :=
       if approved c then VerifiedUser (Member.id (member c))
       else RequiresManualVerification (Member.name (member c))
              (Member.id (member c));
     approved_for :=
       if bool_decide (0 < length (approval_reasons c))
       then Some (approval_reasons c) else None;
     rejected_for :=
       if bool_decide (0 < length (rejection_reasons c))
       then Some (rejection_reasons c) else None |}.

(** The loop that adds the override reactions to the message sent, with
    the [except (AttributeError, discord.errors.Forbidden): pass] around
    it.  [sent] tells whether [send_modlog_message] returned a message;
    [react] is the platform's answer to each reaction.  The reactions
    added, and the exception that is not handled, if any. *)
Fixpoint add_reactions (sent : bool) (react : string → option Error)
    (reactions : list string) : list string * option Error :=
  match reactions with
  | [] => ([], None)
  | reaction :: rest =>
      if negb sent then ([], None)
      else
        match react reaction with
        | None =>
            let '(added, raised) := add_reactions sent react rest in
            (reaction :: added, raised)
        | Some AttributeError | Some Forbidden => ([], None)
        | Some error => ([], Some error)
        end
  end.

(** What [on_join] leaves: the state of the evaluation, the platform,
    the audit message handed to the guild's moderation log, the
    reactions added to it, and the exception it ended with, if any. *)
Record t : Type := {
  state : State;
  platform : Platform.t;
  audit : option ModlogMessage;
  reactions : list string;
  raised : option Error
}.

(** [on_join(member)].  [validators] is the chain [VALIDATORS]; the
    configuration of a guild is a message, never [None]. *)
Definition on_join (validators : list Validator) (sent : bool)
    (react : string → option Error) (m : Member.t) (g : Guild.t)
    (b : Bot.t) (w : Platform.t) : t :=
  let config := validation (Guild.config g) in
  let s := {| ctx := init m g config; bot := b; log := [] |} in
  if negb (enabled config) then
    {| state := s; platform := w; audit := None; reactions := [];
       raised := None |}
  else
    let '(s1, _) := validate_member validators s in
    match Override.verify_member (ctx s1) w with
    | (w1, Some error) =>
        {| state := s1; platform := w1; audit := None; reactions := [];
           raised := Some error |}
    | (w1, None) =>
        let '(added, raised) :=
          add_reactions sent react Override.MODLOG_REACTIONS in
        {| state := s1; platform := w1; audit := Some (compose (ctx s1));
           reactions := added; raised := raised |}
    end.
End Join.

(** A platform that grants every reaction. *)
Definition grant_all_reactions (reaction : string) : option Error := None.

(** Every character of a string passes a test. *)
Fixpoint all_chars (P : ascii → bool) (s : string) : bool :=
  match s with
  | EmptyString => true
  | String c rest => P c && all_chars P rest
  end.

(** A word: a string that is not empty and holds no white space. *)
Definition word (w : string) : Prop :=
  w ≠ EmptyString
  ∧ all_chars (λ c, negb (BannedUsernameRejector.isspace c)) w = true.

(** ** NameMatchRejector (rejectors.py) *)
Module NameMatchRejector.
(** The attribute [self.filter] is named [filter_func] after the argument
    it is set from; [min_match_length] is compared with lengths only, so
    a bound below zero acts as zero. *)
Record t : Type := {
  filter_func : Member.t → bool;
  prefix : string;
  subfield : Member.t → option string;
  member_selector : Member.t → option string;
  min_match_length : option nat
}.

(** The constructor: [subfield] and [member_selector] default to the
    name of the member. *)
Definition __init__ (prefix : string) (filter_func : Member.t → bool)
    (min_match_length : option nat)
    (subfield member_selector : option (Member.t → option string)) : t :=
  {| filter_func := filter_func;
     prefix := prefix;
     subfield := default Member.name subfield;
     member_selector := default Member.name member_selector;
     min_match_length := min_match_length |}.

(** [_split_name]; [split_camel_case] (common.py, not among the sources)
    is a parameter. *)
Definition _split_name (split_camel_case : string → list string) (self : t)
    (name : string) : list string :=
  let split_name := split_camel_case name in
  match min_match_length self with
  | Some n => filter (λ p, n ≤ String.length p) split_name
  | None => split_name
  end.

(** [d[key] = value] on a dict of patterns kept in insertion order. *)
Fixpoint dict_set (key : string) (value : Pattern)
    (d : list (string * Pattern)) : list (string * Pattern) :=
  match d with
  | [] => [(key, value)]
  | (k, v) :: rest =>
      if decide (k = key) then (k, value) :: rest
      else (k, v) :: dict_set key value rest
  end.

(** The dict [member_names] after the first loop; [members] is
    [ctx.guild.members], [generalize_filter] (common.py, not among the
    sources) a parameter. *)
Definition member_names (split_camel_case : string → list string)
    (generalize_filter : string → Pattern) (self : t)
    (members : list Member.t) : list (string * Pattern) :=
  foldl (λ d guild_member,
           let name :=
             default EmptyString (member_selector self guild_member) in
           foldl (λ d p, dict_set p (generalize_filter p) d) d
                 (_split_name split_camel_case self name))
        [] (filter (λ m, filter_func self m = true) members).

Definition reason (self : t) (filter_name : string) : string :=
  prefix self +:+ "Matches: `" +:+ filter_name +:+ "`".

(** The second loop; [re.search] raises on a field that is [None]. *)
Fixpoint for_items (self : t) (field_value : option string)
    (items : list (string * Pattern)) : Validator :=
  match items with
  | [] => Return
  | (filter_name, regex) :: rest =>
      match field_value with
      | None => Raise RuntimeError
      | Some value =>
          if re_search regex value
          then AddRejectionReason (Some (reason self filter_name))
                 (for_items self field_value rest)
          else for_items self field_value rest
      end
  end.

Definition validate_member (split_camel_case : string → list string)
    (generalize_filter : string → Pattern) (members : list Member.t)
    (self : t) : Validator :=
  Inspect (λ c _,
    for_items self (subfield self (member c))
      (member_names split_camel_case generalize_filter self members)).
End NameMatchRejector.

(** The tokens a name-match rejector takes from the members of the
    guild: the parts, long enough, of the selected name of the members
    that pass its filter. *)
Definition candidate_token (split_camel_case : string → list string)
    (self : NameMatchRejector.t) (members : list Member.t) (p : string)
  : Prop :=
  ∃ guild_member,
    guild_member ∈ members
    ∧ NameMatchRejector.filter_func self guild_member = true
    ∧ p ∈ split_camel_case
            (default EmptyString
               (NameMatchRejector.member_selector self guild_member))
    ∧ match NameMatchRejector.min_match_length self with
      | Some n => n ≤ String.length p
      | None => True
      end.

(** ** The normal form of a name, in the words of the specification

    A name is normalized by folding its case and collapsing its white
    space.  These definitions do not use [_normalize]; the two are
    compared below. *)

(** White space: the space, and the control characters tab, line feed,
    vertical tab, form feed, carriage return and the four separators. *)
Definition white_space (c : ascii) : bool :=
  bool_decide
    (c ∈ [" "; "009"; "010"; "011"; "012"; "013";
          "028"; "029"; "030"; "031"]%char).

(** Folding the case of a character: a capital letter becomes the small
    letter, any other character stays. *)
Definition small_letter (c : ascii) : ascii :=
  if (("A" <=? c) && (c <=? "Z"))%char
  then ascii_of_N (N_of_ascii c + 32)
  else c.

Fixpoint fold_case (val : string) : string :=
  match val with
  | EmptyString => EmptyString
  | String c rest => String (small_letter c) (fold_case rest)
  end.

(** Where the reading of a name stands: before its first word, inside a
    word, or in the white space after a word. *)
Inductive Reading : Type :=
| BeforeFirstWord
| InsideWord
| AfterWord.

(** Collapsing white space: each run of white space between two words
    becomes one space; a run before the first word or after the last
    leaves nothing. *)
Fixpoint collapse_white_space (at_ : Reading) (val : string) : string :=
  match val with
  | EmptyString => EmptyString
  | String c rest =>
      if white_space c then
        collapse_white_space
          (match at_ with
           | BeforeFirstWord => BeforeFirstWord
           | InsideWord | AfterWord => AfterWord
           end) rest
      else
        let word_on := String c (collapse_white_space InsideWord rest) in
        match at_ with
        | AfterWord => String " " word_on
        | BeforeFirstWord | InsideWord => word_on
        end
  end.

Definition normal_form (val : string) : string :=
  collapse_white_space BeforeFirstWord (fold_case val).

(** A platform that refuses every role and grants the rest. *)
Definition forbid_roles (c : Call) : option Error :=
  match c with
  | AddRoles _ _ => Some Forbidden
  | _ => None
  end.

(** * Properties *)

(** ** The context and the pipeline *)

Lemma usernames_ctx s :
  approved (ctx (usernames s).2) = approved (ctx s)
  ∧ approval_reasons (ctx (usernames s).2) = approval_reasons (ctx s)
  ∧ rejection_reasons (ctx (usernames s).2) = rejection_reasons (ctx s).
Proof. unfold usernames. by destruct (_usernames (ctx s)). Qed.

Lemma polarity_cons r rs a :
  default a (polarity (r :: rs)) = default (is_approval r) (polarity rs).
Proof.
  unfold polarity. destruct rs as [|r' rs]; [done|].
  change (last (r :: r' :: rs)) with (last (r' :: rs)).
  by destruct (last (r' :: rs)) eqn:E; [|apply last_None in E].
Qed.

Lemma polarity_nonempty rs : rs ≠ [] → is_Some (polarity rs).
Proof.
  intros Hrs. unfold polarity.
  destruct (last rs) eqn:E; [by eexists|]. by apply last_None in E.
Qed.

(** What a validator's run does to the context is what it recorded:
    both trails grow at the end, and the verdict is the polarity of the
    last reason recorded, or what it was. *)
Lemma run_recorded v : ∀ s,
  approval_reasons (ctx (run v s).1)
    = approval_reasons (ctx s) ++ approvals (recorded v s)
  ∧ rejection_reasons (ctx (run v s).1)
    = rejection_reasons (ctx s) ++ rejections (recorded v s)
  ∧ approved (ctx (run v s).1)
    = default (approved (ctx s)) (polarity (recorded v s)).
Proof.
  induction v as [| |reason k IH|reason k IH|k IH|k IH|A call k IH];
    intros s; simpl.
  - by rewrite !app_nil_r.
  - by rewrite !app_nil_r.
  - destruct reason as [r|]; simpl; [|by rewrite !app_nil_r].
    destruct (IH (set_ctx
      {| member := member (ctx s); guild := guild (ctx s);
         guild_config := guild_config (ctx s); role := role (ctx s);
         approved := true;
         approval_reasons := approval_reasons (ctx s) ++ [r];
         rejection_reasons := rejection_reasons (ctx s);
         _usernames := _usernames (ctx s) |} s)) as (Ha & Hr & Hv).
    simpl in *. rewrite Ha, Hr, Hv, polarity_cons.
    by rewrite <-app_assoc.
  - destruct reason as [r|]; simpl; [|by rewrite !app_nil_r].
    destruct (IH (set_ctx
      {| member := member (ctx s); guild := guild (ctx s);
         guild_config := guild_config (ctx s); role := role (ctx s);
         approved := false;
         approval_reasons := approval_reasons (ctx s);
         rejection_reasons := rejection_reasons (ctx s) ++ [r];
         _usernames := _usernames (ctx s) |} s)) as (Ha & Hr & Hv).
    simpl in *. rewrite Ha, Hr, Hv, polarity_cons.
    by rewrite <-app_assoc.
  - destruct (usernames_ctx s) as (Ev & Ea & Er).
    destruct (usernames s) as [names s'] eqn:E. simpl in *.
    destruct (IH names s') as (Ha & Hr & Hv).
    by rewrite Ha, Hr, Hv, Ev, Ea, Er.
  - apply IH.
  - destruct (call (bot s)) as [a b]. apply (IH a (set_bot b s)).
Qed.

(** The handler of a fault leaves the context as the fault left it. *)
Lemma run_validator_ctx v s : ctx (run_validator v s) = ctx (run v s).1.
Proof. unfold run_validator. by destruct (run v s) as [s' [e|]]. Qed.

Lemma validate_member_app vs1 : ∀ vs2 s,
  validate_member (vs1 ++ vs2) s
  = validate_member vs2 (validate_member vs1 s).1.
Proof.
  induction vs1 as [|v vs1 IH]; intros vs2 s; simpl; [done|]. apply IH.
Qed.

Lemma last_recording_nonempty tr rs :
  last_recording tr = Some rs → rs ≠ [].
Proof.
  unfold last_recording. intros H%last_Some_elem_of.
  by apply list_elem_of_filter in H as [? _].
Qed.

Lemma last_recording_cons rs tr :
  last_recording (rs :: tr)
  = match last_recording tr with
    | Some rs' => Some rs'
    | None => if decide (rs = []) then None else Some rs
    end.
Proof.
  unfold last_recording. rewrite filter_cons.
  destruct (decide (rs ≠ [])) as [Hne|He].
  - destruct (filter _ tr) as [|x l] eqn:E; simpl.
    + by destruct (decide (rs = [])).
    + change (last (rs :: x :: l)) with (last (x :: l)).
      destruct (last (x :: l)) eqn:El; [done|]. by apply last_None in El.
  - destruct (last (filter _ tr)); [done|].
    destruct (decide (rs = [])); [done|]. by destruct He.
Qed.

Lemma validate_member_verdict vs : ∀ s,
  (validate_member vs s).2
  = default (approved (ctx s))
      (last_recording (chain_recorded vs s) ≫= polarity).
Proof.
  induction vs as [|v vs IH]; intros s; simpl; [done|].
  rewrite IH, last_recording_cons, run_validator_ctx.
  destruct (run_recorded v s) as (_ & _ & ->).
  destruct (last_recording (chain_recorded vs (run_validator v s)))
    as [rs|] eqn:E; simpl.
  - apply last_recording_nonempty, polarity_nonempty in E as [p ->]. done.
  - destruct (decide (recorded v s = [])) as [->|Hne]; simpl; [done|].
    by destruct (polarity_nonempty _ Hne) as [p ->].
Qed.

(** C1.  From a fresh context, the verdict [validate_member] returns is
    the polarity of the last validator of the chain that recorded a
    reason, and [true] when none did.  The polarity of a validator is
    that of the last reason it recorded: [true] for one that recorded
    approval reasons only, [false] for one that recorded rejection
    reasons only. *)
Theorem final_verdict_is_last_recorded_polarity
    (validators : list Validator) (m : Member.t) (g : Guild.t)
    (config : ValidationConfig) (b : Bot.t) :
  let s := fresh m g config b in
  let verdict := (validate_member validators s).2 in
  let last_rec := last_recording (chain_recorded validators s) in
  verdict = default true (last_rec ≫= polarity)
  ∧ match last_rec with
    | None => verdict = true
    | Some rs =>
        (Forall (λ r, is_approval r = true) rs → verdict = true)
        ∧ (Forall (λ r, is_approval r = false) rs → verdict = false)
    end.
Proof.
  intros s verdict last_rec.
  assert (verdict = default true (last_rec ≫= polarity)) as Hv
    by apply validate_member_verdict.
  split; [done|]. rewrite Hv. clear Hv.
  destruct last_rec as [rs|] eqn:E; simpl; [|done].
  pose proof (last_recording_nonempty _ _ E) as Hne.
  unfold polarity.
  destruct (last rs) as [r|] eqn:El; [|by apply last_None in El].
  apply last_Some_elem_of in El. simpl.
  split; intros Hall; by apply (proj1 (Forall_forall _ _) Hall).
Qed.

Lemma run_reasons_prefix v s :
  approval_reasons (ctx s) `prefix_of` approval_reasons (ctx (run v s).1)
  ∧ rejection_reasons (ctx s) `prefix_of` rejection_reasons (ctx (run v s).1).
Proof.
  destruct (run_recorded v s) as (-> & -> & _).
  split; apply prefix_app_r; done.
Qed.

Lemma validate_member_reasons_prefix vs : ∀ s,
  approval_reasons (ctx s)
    `prefix_of` approval_reasons (ctx (validate_member vs s).1)
  ∧ rejection_reasons (ctx s)
    `prefix_of` rejection_reasons (ctx (validate_member vs s).1).
Proof.
  induction vs as [|v vs IH]; intros s; simpl; [done|].
  destruct (IH (run_validator v s)) as [Ha Hr].
  rewrite run_validator_ctx in Ha, Hr.
  destruct (run_reasons_prefix v s) as [Ha' Hr'].
  split; etrans; eauto.
Qed.

(** C7.  During one evaluation the two trails only grow at the end: what
    they hold after any part of the chain is a prefix of what they hold
    after the whole chain, whatever verdict the later validators leave,
    and the same holds inside the run of a single validator. *)
Theorem reasons_append_only (vs1 vs2 : list Validator) (v : Validator)
    (s : State) :
  let s1 := (validate_member vs1 s).1 in
  let s2 := (validate_member (vs1 ++ vs2) s).1 in
  (approval_reasons (ctx s1) `prefix_of` approval_reasons (ctx s2)
   ∧ rejection_reasons (ctx s1) `prefix_of` rejection_reasons (ctx s2))
  ∧ (approval_reasons (ctx s) `prefix_of` approval_reasons (ctx (run v s).1)
     ∧ rejection_reasons (ctx s)
         `prefix_of` rejection_reasons (ctx (run v s).1)).
Proof.
  intros s1 s2. split; [|apply run_reasons_prefix].
  unfold s2. rewrite validate_member_app.
  apply validate_member_reasons_prefix.
Qed.

(** C4.  A validator that raises does not end the chain: the handler
    logs the fault, sends it to the owner, and the loop goes on with the
    validators that follow, from the context as the faulty validator left
    it; the verdict returned is the one this continuation reaches. *)
Theorem fault_does_not_abort_chain (vs1 vs2 : list Validator)
    (v : Validator) (s s' : State) (error : Error) :
  run v (validate_member vs1 s).1 = (s', Some error) →
  let handled := run_validator v (validate_member vs1 s).1 in
  validate_member (vs1 ++ v :: vs2) s = validate_member vs2 handled
  ∧ ctx handled = ctx s'
  ∧ Bot.owner_errors (bot handled) = Bot.owner_errors (bot s') ++ [error].
Proof.
  intros Hrun handled. split; [|split].
  - by rewrite validate_member_app.
  - unfold handled, run_validator. by rewrite Hrun.
  - unfold handled, run_validator. by rewrite Hrun.
Qed.

(** A chain whose second validator raises after the first rejected: the
    third still runs and approves, and the owner was told. *)
Lemma fault_does_not_abort_chain_witness :
  let chain :=
    [AddRejectionReason (Some "User has no avatar."%string) Return]
    ++ Raise RuntimeError
    :: [AddApprovalReason (Some "User has Nitro."%string) Return] in
  (validate_member chain sample_state).2 = true
  ∧ rejection_reasons (ctx (validate_member chain sample_state).1)
    = ["User has no avatar."%string]
  ∧ Bot.owner_errors (bot (validate_member chain sample_state).1)
    = [RuntimeError].
Proof.
  intros chain.
  destruct (fault_does_not_abort_chain
              [AddRejectionReason (Some "User has no avatar."%string) Return]
              [AddApprovalReason (Some "User has Nitro."%string) Return]
              (Raise RuntimeError) sample_state _ RuntimeError eq_refl)
    as (Hchain & _).
  unfold chain. rewrite Hchain. vm_compute. done.
Defined.

(** ** StringFilterRejector *)

Lemma append_cons a s t : String a s +:+ t = String a (s +:+ t).
Proof. done. Qed.

(** [regex.match] succeeds exactly when the pattern matches a prefix of
    the value. *)
Lemma re_match_spec value : ∀ regex,
  re_match regex value = true
  ↔ ∃ p rest, value = p +:+ rest ∧ regex p = true.
Proof.
  induction value as [|a value IH]; intros regex; simpl.
  - rewrite orb_false_r. split.
    + intros H. by exists EmptyString, EmptyString.
    + intros (p & rest & Hv & Hp). destruct p; [done|].
      by rewrite append_cons in Hv.
  - rewrite orb_true_iff, IH. split.
    + intros [H|(p & rest & -> & Hp)].
      * by exists EmptyString, (String a value).
      * by exists (String a p), rest.
    + intros (p & rest & Hv & Hp). destruct p as [|b p]; [by left|].
      right. rewrite append_cons in Hv. injection Hv as -> ->.
      by exists p, rest.
Qed.

(** [regex.search] succeeds exactly when the pattern matches a substring
    of the value. *)
Lemma re_search_spec value : ∀ regex,
  re_search regex value = true
  ↔ ∃ before p rest, value = before +:+ p +:+ rest ∧ regex p = true.
Proof.
  induction value as [|a value IH]; intros regex.
  - simpl. rewrite !orb_false_r. split.
    + intros H. by exists EmptyString, EmptyString, EmptyString.
    + intros (before & p & rest & Hv & Hp).
      destruct before; [|by rewrite append_cons in Hv].
      destruct p; [done|]. by rewrite append_cons in Hv.
  - change (re_search regex (String a value))
      with (re_match regex (String a value) || re_search regex value).
    rewrite orb_true_iff, re_match_spec, IH. split.
    + intros [(p & rest & Hv & Hp)|(before & p & rest & -> & Hp)].
      * by exists EmptyString, p, rest.
      * by exists (String a before), p, rest.
    + intros (before & p & rest & Hv & Hp).
      destruct before as [|b before].
      * left. by exists p, rest.
      * right. rewrite append_cons in Hv. injection Hv as -> ->.
        by exists before, p, rest.
Qed.

(** With [full_match] the rejector asks [regex.match], so a reason is
    recorded as soon as the pattern matches a prefix of the value. *)
Lemma full_match_rejects_on_prefix gf prefix (f v rest : string) s :
  gf f v = true →
  let self := StringFilterRejector.__init__ gf prefix [f] true
                (Some (λ _, [v +:+ rest])) in
  recorded (StringFilterRejector.validate_member self) s
  = [Rejection (StringFilterRejector.reason self f)].
Proof.
  intros Hv self. simpl.
  assert (re_match (gf f) (v +:+ rest) = true) as ->; [|by simpl].
  apply re_match_spec. by exists v, rest.
Qed.

(** Without [full_match] the rejector asks [regex.search]: a match of a
    substring is enough. *)
Lemma substring_match_rejects gf prefix (f before v rest : string) s :
  gf f v = true →
  let self := StringFilterRejector.__init__ gf prefix [f] false
                (Some (λ _, [before +:+ v +:+ rest])) in
  recorded (StringFilterRejector.validate_member self) s
  = [Rejection (StringFilterRejector.reason self f)].
Proof.
  intros Hv self. simpl.
  assert (re_search (gf f) (before +:+ v +:+ rest) = true) as ->;
    [|by simpl].
  apply re_search_spec. by exists before, v, rest.
Qed.

(** C2 (the code departs from the claim).  The full-match filter [bot]
    rejects the name [Bot4711]: the pattern does not match the whole
    name, only its first three characters, and the reason is recorded
    all the same. *)
Theorem full_match_rejects_proper_prefix :
  let s := fresh sample_bot4711 sample_guild
             (validation (Guild.config sample_guild)) sample_bot in
  let v := StringFilterRejector.validate_member sample_full_match_rejector in
  re_fullmatch (generalize_filter "bot") "Bot4711" = false
  ∧ re_fullmatch (generalize_filter "bot") "Bot" = true
  ∧ rejection_reasons (ctx (run v s).1)
    = ["Likely user bot. Matches: `bot`"%string]
  ∧ approved (ctx (run v s).1) = false.
Proof. vm_compute. done. Qed.

(** ** BannedUserRejector *)

Lemma size_zero_empty (X : gset string) :
  bool_decide (size X = 0) = bool_decide (X = ∅).
Proof. apply bool_decide_ext. by rewrite size_empty_iff, leibniz_equiv_iff. Qed.

(** The loop, when every record read is from a valid guild: one reason
    per text not seen before, and the generic reason when the user is
    banned and no text was seen at all. *)
Lemma for_bans_valid self bans : ∀ banned reasons s,
  Forall (valid_at self (bot s)) bans →
  ∃ rs, NoDup rs
    ∧ (∀ r, r ∈ rs
            ↔ (r ∉ reasons) ∧ ∃ ban, ban ∈ bans ∧ Ban.reason ban = Some r)
    ∧ (run (BannedUserRejector.for_bans self bans banned reasons) s).2 = None
    ∧ recorded (BannedUserRejector.for_bans self bans banned reasons) s
      = (Rejection ∘ BannedUserRejector.reason <$> rs)
        ++ (if bool_decide (reasons = ∅ ∧ rs = [])
               && (banned || bool_decide (bans ≠ []))
            then [generic_rejection] else []).
Proof.
  induction bans as [|ban rest IH]; intros banned reasons s Hvalid.
  - exists []. split; [constructor|]. split.
    { intros r. split.
      - intros Hr. by apply elem_of_nil in Hr.
      - intros (_ & ban & Hban & _). by apply elem_of_nil in Hban. }
    simpl. rewrite size_zero_empty, orb_false_r.
    repeat case_bool_decide; destruct banned; simpl; naive_solver.
  - apply Forall_cons in Hvalid as [Hban Hrest]. unfold valid_at in Hban.
    simpl. rewrite Hban.
    assert (∀ rs : list string,
      bool_decide (reasons = ∅ ∧ rs = [])
        && (banned || bool_decide (ban :: rest ≠ []))
      = bool_decide (reasons = ∅ ∧ rs = [])
        && (true || bool_decide (rest ≠ []))) as Hflag.
    { intros rs. by rewrite (bool_decide_eq_true_2 (ban :: rest ≠ [])),
        orb_true_r. }
    destruct (Ban.reason ban) as [r|] eqn:Hr.
    + destruct (decide (r ∈ reasons)) as [Hin|Hnin].
      * rewrite (bool_decide_eq_false_2 (r ∉ reasons)) by tauto.
        destruct (IH true reasons s Hrest) as (rs & Hnd & Hmem & Hrun & Hrec).
        exists rs. split; [done|]. split; [|by rewrite Hflag].
        intros r0. rewrite Hmem. split.
        -- intros (? & b0 & ? & ?). split; [done|]. exists b0.
           split; [by right|done].
        -- intros (Hr0 & b0 & [->|Hb0]%elem_of_cons & Hreason).
           ++ rewrite Hr in Hreason. by injection Hreason as ->.
           ++ eauto.
      * rewrite (bool_decide_eq_true_2 (r ∉ reasons)) by done. simpl.
        destruct (IH true ({[ r ]} ∪ reasons)
                    (set_ctx
                       {| member := member (ctx s); guild := guild (ctx s);
                          guild_config := guild_config (ctx s);
                          role := role (ctx s); approved := false;
                          approval_reasons := approval_reasons (ctx s);
                          rejection_reasons :=
                            rejection_reasons (ctx s)
                            ++ [BannedUserRejector.reason r];
                          _usernames := _usernames (ctx s) |} s) Hrest)
          as (rs & Hnd & Hmem & Hrun & Hrec).
        exists (r :: rs). split; [|split; [|split]].
        -- apply NoDup_cons. split; [|done].
           intros [Hbad _]%Hmem. set_solver.
        -- intros r0. rewrite elem_of_cons, Hmem. split.
           ++ intros [->|(Hr0 & b0 & ? & ?)].
              ** split; [done|]. exists ban. split; [by left|done].
              ** split; [set_solver|]. exists b0. split; [by right|done].
           ++ intros (Hr0 & b0 & [->|Hb0]%elem_of_cons & Hreason).
              ** left. rewrite Hr in Hreason. by injection Hreason.
              ** destruct (decide (r0 = r)) as [->|Hne]; [by left|].
                 right. split; [set_solver|]. eauto.
        -- done.
        -- rewrite Hrec.
           rewrite (bool_decide_eq_false_2 ({[r]} ∪ reasons = ∅ ∧ rs = []))
             by set_solver.
           rewrite (bool_decide_eq_false_2 (reasons = ∅ ∧ r :: rs = []))
             by naive_solver.
           done.
    + destruct (IH true reasons s Hrest) as (rs & Hnd & Hmem & Hrun & Hrec).
      exists rs. split; [done|]. split; [|by rewrite Hflag].
      intros r0. rewrite Hmem. split.
      * intros (? & b0 & ? & ?). split; [done|]. exists b0.
        split; [by right|done].
      * intros (Hr0 & b0 & [->|Hb0]%elem_of_cons & Hreason).
        -- by rewrite Hr in Hreason.
        -- eauto.
Qed.

(** The loop, when a record read is from a guild that is not valid any
    more: the assertion fails there; what the records before it made the
    loop record stays, nothing else is recorded. *)
Lemma for_bans_invalid self pre : ∀ ban post banned reasons s,
  Forall (valid_at self (bot s)) pre →
  ¬ valid_at self (bot s) ban →
  ∃ rs, NoDup rs
    ∧ (∀ r, r ∈ rs
            ↔ (r ∉ reasons) ∧ ∃ b0, b0 ∈ pre ∧ Ban.reason b0 = Some r)
    ∧ (run (BannedUserRejector.for_bans self (pre ++ ban :: post)
              banned reasons) s).2 = Some AssertionError
    ∧ recorded (BannedUserRejector.for_bans self (pre ++ ban :: post)
                  banned reasons) s
      = (Rejection ∘ BannedUserRejector.reason <$> rs).
Proof.
  induction pre as [|b1 pre IH]; intros ban post banned reasons s Hpre Hban.
  - exists []. split; [constructor|]. split.
    { intros r. split.
      - intros Hr. by apply elem_of_nil in Hr.
      - intros (_ & b0 & Hb0 & _). by apply elem_of_nil in Hb0. }
    unfold valid_at in Hban. simpl.
    by destruct (BannedUserRejector._is_valid_guild self _).
  - apply Forall_cons in Hpre as [Hb1 Hpre]. unfold valid_at in Hb1.
    simpl. rewrite Hb1.
    destruct (Ban.reason b1) as [r|] eqn:Hr.
    + destruct (decide (r ∈ reasons)) as [Hin|Hnin].
      * rewrite (bool_decide_eq_false_2 (r ∉ reasons)) by tauto.
        destruct (IH ban post true reasons s Hpre Hban)
          as (rs & Hnd & Hmem & Hrun & Hrec).
        exists rs. split; [done|]. split; [|done].
        intros r0. rewrite Hmem. split.
        -- intros (? & b0 & ? & ?). split; [done|]. exists b0.
           split; [by right|done].
        -- intros (Hr0 & b0 & [->|Hb0]%elem_of_cons & Hreason).
           ++ rewrite Hr in Hreason. by injection Hreason as ->.
           ++ eauto.
      * rewrite (bool_decide_eq_true_2 (r ∉ reasons)) by done. simpl.
        destruct (IH ban post true ({[ r ]} ∪ reasons)
                    (set_ctx
                       {| member := member (ctx s); guild := guild (ctx s);
                          guild_config := guild_config (ctx s);
                          role := role (ctx s); approved := false;
                          approval_reasons := approval_reasons (ctx s);
                          rejection_reasons :=
                            rejection_reasons (ctx s)
                            ++ [BannedUserRejector.reason r];
                          _usernames := _usernames (ctx s) |} s) Hpre Hban)
          as (rs & Hnd & Hmem & Hrun & Hrec).
        exists (r :: rs). split; [|split; [|split]].
        -- apply NoDup_cons. split; [|done].
           intros [Hbad _]%Hmem. set_solver.
        -- intros r0. rewrite elem_of_cons, Hmem. split.
           ++ intros [->|(Hr0 & b0 & ? & ?)].
              ** split; [done|]. exists b1. split; [by left|done].
              ** split; [set_solver|]. exists b0. split; [by right|done].
           ++ intros (Hr0 & b0 & [->|Hb0]%elem_of_cons & Hreason).
              ** left. rewrite Hr in Hreason. by injection Hreason.
              ** destruct (decide (r0 = r)) as [->|Hne]; [by left|].
                 right. split; [set_solver|]. eauto.
        -- done.
        -- by rewrite Hrec.
    + destruct (IH ban post true reasons s Hpre Hban)
        as (rs & Hnd & Hmem & Hrun & Hrec).
      exists rs. split; [done|]. split; [|done].
      intros r0. rewrite Hmem. split.
      * intros (? & b0 & ? & ?). split; [done|]. exists b0.
        split; [by right|done].
      * intros (Hr0 & b0 & [->|Hb0]%elem_of_cons & Hreason).
        -- by rewrite Hr in Hreason.
        -- eauto.
Qed.

(** X20.  Let [bans] be the records the ban storage answers with and
    [answer.2] the bot when they are read.  If the guild of every record
    is still valid, the rejector returns and records one reason per
    distinct reason text of the records (a text that is not [None]; the
    empty text is a text), and the generic reason when there are records
    and none has a text.  If the guild of some record is not valid any
    more, the assertion fails at the first such record, the reasons of
    the records before it stay, and no later record is read. *)
Theorem banned_user_rejector_reasons
    (get_bans : Z → list Z → Bot.t → list Ban.t * Bot.t)
    (self : BannedUserRejector.t) (s : State) :
  let guild_ids :=
    Guild.id <$> filter (λ g, BannedUserRejector._is_valid_guild self (Some g)
                              = true) (Bot.guilds (bot s)) in
  let answer := get_bans (Member.id (member (ctx s))) guild_ids (bot s) in
  let bans := answer.1 in
  let v := BannedUserRejector.validate_member get_bans self in
  (Forall (valid_at self answer.2) bans →
   ∃ rs, NoDup rs
     ∧ (∀ r, r ∈ rs ↔ ∃ ban, ban ∈ bans ∧ Ban.reason ban = Some r)
     ∧ (run v s).2 = None
     ∧ recorded v s
       = (Rejection ∘ BannedUserRejector.reason <$> rs)
         ++ (if bool_decide (rs = [] ∧ bans ≠ [])
             then [generic_rejection] else []))
  ∧ (∀ pre ban post,
       bans = pre ++ ban :: post →
       Forall (valid_at self answer.2) pre →
       ¬ valid_at self answer.2 ban →
       ∃ rs, NoDup rs
         ∧ (∀ r, r ∈ rs ↔ ∃ b0, b0 ∈ pre ∧ Ban.reason b0 = Some r)
         ∧ (run v s).2 = Some AssertionError
         ∧ recorded v s = (Rejection ∘ BannedUserRejector.reason <$> rs)).
Proof.
  intros guild_ids answer bans v.
  assert (run v s
          = run (BannedUserRejector.for_bans self bans false ∅)
                (set_bot answer.2 s)
          ∧ recorded v s
            = recorded (BannedUserRejector.for_bans self bans false ∅)
                       (set_bot answer.2 s)) as [Hrun Hrec].
  { unfold v, bans, answer, guild_ids.
    cbn [run recorded BannedUserRejector.validate_member].
    by destruct (get_bans _ _ _). }
  rewrite Hrun, Hrec. split.
  - intros Hall.
    destruct (for_bans_valid self bans false ∅ (set_bot answer.2 s) Hall)
      as (rs & Hnd & Hmem & Hok & Hrs).
    exists rs. split; [done|]. split; [|split; [done|]].
    + intros r. rewrite Hmem. set_solver.
    + rewrite Hrs. f_equal.
      repeat case_bool_decide; simpl; naive_solver.
  - intros pre ban post Hbans Hpre Hban. rewrite Hbans.
    destruct (for_bans_invalid self pre ban post false ∅
                (set_bot answer.2 s) Hpre Hban)
      as (rs & Hnd & Hmem & Hraise & Hrs).
    exists rs. split; [done|]. split; [|done].
    intros r. rewrite Hmem. set_solver.
Qed.

(** C3 (the code departs from the claim).  The user is banned in two
    guilds, both valid when the guild ids are collected, and the ban
    storage answers with both records.  While it is awaited the first
    guild drops to 149 members; the second stays valid.  The rejector
    does not skip the record of the first guild: its assertion fails
    there, the ban of the second, valid guild is never read, nothing is
    recorded, and the chain made of this rejector approves a user who is
    banned on another server. *)
Lemma banned_user_rejector_does_not_skip :
  let self := sample_banned_user_rejector in
  let v := BannedUserRejector.validate_member sample_get_bans_shrinking self in
  let answer := sample_get_bans_shrinking 4 [20; 10]%Z sample_bot_two_guilds in
  answer.1 = [ {| Ban.guild_id := 20; Ban.reason := Some "spam"%string |};
               {| Ban.guild_id := 10; Ban.reason := Some "raid"%string |} ]
  ∧ BannedUserRejector._is_valid_guild self (Bot.get_guild answer.2 20)
    = false
  ∧ BannedUserRejector._is_valid_guild self (Bot.get_guild answer.2 10)
    = true
  ∧ (run v sample_state_two_guilds).2 = Some AssertionError
  ∧ recorded v sample_state_two_guilds = []
  ∧ (validate_member [v] sample_state_two_guilds).2 = true.
Proof. vm_compute. done. Qed.

(** The theorem at work: three records of valid guilds, two with the
    same text and one without, and the shrinking guild of the lemma
    above. *)
Lemma banned_user_rejector_reasons_witness :
  (let v := BannedUserRejector.validate_member sample_get_bans
              sample_banned_user_rejector in
   ∃ rs, NoDup rs
     ∧ (run v sample_state_two_guilds).2 = None
     ∧ recorded v sample_state_two_guilds
       = (Rejection ∘ BannedUserRejector.reason <$> rs)
         ++ (if bool_decide
                  (rs = []
                   ∧ (sample_get_bans 4 [20; 10]%Z sample_bot_two_guilds).1
                     ≠ [])
             then [generic_rejection] else []))
  ∧ (let v := BannedUserRejector.validate_member sample_get_bans_shrinking
                sample_banned_user_rejector in
     (run v sample_state_two_guilds).2 = Some AssertionError).
Proof.
  split.
  - destruct (banned_user_rejector_reasons sample_get_bans
                sample_banned_user_rejector sample_state_two_guilds)
      as [Hvalid _].
    destruct Hvalid as (rs & Hnd & _ & Hrun & Hrec).
    { vm_compute. repeat constructor. }
    exists rs. split; [done|]. split; [done|]. exact Hrec.
  - destruct (banned_user_rejector_reasons sample_get_bans_shrinking
                sample_banned_user_rejector sample_state_two_guilds)
      as [_ Hinvalid].
    destruct (Hinvalid []
                {| Ban.guild_id := 20; Ban.reason := Some "spam"%string |}
                [ {| Ban.guild_id := 10; Ban.reason := Some "raid"%string |} ])
      as (rs & _ & _ & Hrun & _).
    + vm_compute. done.
    + constructor.
    + vm_compute. done.
    + exact Hrun.
Defined.

(** ** BannedUsernameRejector *)

Lemma append_nil_r s : s +:+ "" = s.
Proof. induction s as [|c s IH]; [done|]. by rewrite append_cons, IH. Qed.

Lemma white_space_isspace c :
  white_space c = BannedUsernameRejector.isspace c.
Proof. by destruct c as [[] [] [] [] [] [] [] []]; vm_compute. Qed.

Lemma small_letter_casefold_char c :
  small_letter c = BannedUsernameRejector.casefold_char c.
Proof. by destruct c as [[] [] [] [] [] [] [] []]; vm_compute. Qed.

Lemma fold_case_casefold val :
  fold_case val = BannedUsernameRejector.casefold val.
Proof.
  induction val as [|c val IH]; simpl; [done|].
  by rewrite small_letter_casefold_char, IH.
Qed.

Lemma rev_app_append a : ∀ b t,
  String.rev_app a b +:+ t = String.rev_app a (b +:+ t).
Proof.
  induction a as [|c a IH]; intros b t; simpl; [done|].
  by rewrite IH.
Qed.

Lemma split_go_Some_cons val : ∀ w,
  ∃ y l, BannedUsernameRejector.split_go (Some w) val = y :: l.
Proof.
  induction val as [|c val IH]; intros w; simpl.
  - by eexists _, _.
  - destruct (BannedUsernameRejector.isspace c); [by eexists _, _|].
    apply IH.
Qed.

(** Joining the words [split] reads collapses the white space, from
    wherever the reading stands. *)
Lemma concat_split_go val :
  String.concat " " (BannedUsernameRejector.split_go None val)
  = collapse_white_space BeforeFirstWord val
  ∧ (∀ w, String.concat " " (BannedUsernameRejector.split_go (Some w) val)
          = String.rev w +:+ collapse_white_space InsideWord val)
  ∧ (∀ x, String.concat " " (x :: BannedUsernameRejector.split_go None val)
          = x +:+ collapse_white_space AfterWord val).
Proof.
  induction val as [|c val (IHb & IHw & IHa)].
  - simpl. split; [done|]. split; intros ?; by rewrite append_nil_r.
  - cbn [BannedUsernameRejector.split_go collapse_white_space].
    rewrite white_space_isspace.
    destruct (BannedUsernameRejector.isspace c).
    + split; [exact IHb|]. split.
      * intros w. simpl. apply IHa.
      * intros x. simpl. apply IHa.
    + split; [|split].
      * simpl. by rewrite IHw.
      * intros w. simpl. rewrite IHw. unfold String.rev. simpl.
        by rewrite !rev_app_append.
      * intros x. simpl.
        destruct (split_go_Some_cons val (String c "")) as (y & l & E).
        pose proof (IHw (String c "")) as Hw. rewrite E in Hw |- *.
        change (String.concat " " (x :: y :: l))
          with (x +:+ " " +:+ String.concat " " (y :: l)).
        by rewrite Hw.
Qed.

(** [_normalize] computes the normal form of a name. *)
Lemma normalize_normal_form val :
  BannedUsernameRejector._normalize val = normal_form val.
Proof.
  unfold BannedUsernameRejector._normalize, BannedUsernameRejector.split,
    normal_form.
  rewrite fold_case_casefold. apply concat_split_go.
Qed.

Lemma dict_get_is_Some key d : is_Some (dict_get key d) ↔ key ∈ d.*1.
Proof.
  unfold dict_get. rewrite fmap_is_Some. split.
  - intros [[i kv] H]. apply list_find_Some in H as (Hi & <- & _).
    apply list_elem_of_fmap. exists kv. split; [done|].
    by eapply list_elem_of_lookup_2.
  - intros ([k v] & -> & Hin)%list_elem_of_fmap.
    destruct (list_find (λ kv, kv.1 = k) d) eqn:E; [done|].
    eapply list_find_None, Forall_forall in E; [|done]. done.
Qed.

Lemma dict_set_keys key value d k :
  k ∈ (BannedUsernameRejector.dict_set key value d).*1 ↔ k = key ∨ k ∈ d.*1.
Proof.
  induction d as [|[k' v'] d IH]; simpl.
  - rewrite elem_of_cons. set_solver.
  - destruct (decide (k' = key)) as [->|Hne]; simpl.
    + rewrite !elem_of_cons. naive_solver.
    + rewrite !elem_of_cons, IH. naive_solver.
Qed.

(** The keys of the dict are the normalized names of the banned users. *)
Lemma normalized_bans_keys bans k :
  k ∈ (BannedUsernameRejector.normalized_bans bans).*1
  ↔ ∃ ban, ban ∈ bans
      ∧ BannedUsernameRejector._normalize (User.name (BanEntry.user ban)) = k.
Proof.
  unfold BannedUsernameRejector.normalized_bans.
  assert (∀ d,
    k ∈ (foldl (λ d ban,
                  let n := User.name (BanEntry.user ban) in
                  BannedUsernameRejector.dict_set
                    (BannedUsernameRejector._normalize n) n d) d bans).*1
    ↔ k ∈ d.*1
      ∨ ∃ ban, ban ∈ bans
          ∧ BannedUsernameRejector._normalize (User.name (BanEntry.user ban))
            = k) as H.
  { induction bans as [|ban bans IH]; intros d; simpl.
    - split; [by left|]. intros [?|(ban & Hban & _)]; [done|].
      by apply elem_of_nil in Hban.
    - rewrite IH, dict_set_keys. split.
      + intros [[->|?]|(b0 & ? & ?)].
        * right. exists ban. split; [by left|done].
        * by left.
        * right. exists b0. split; [by right|done].
      + intros [?|(b0 & [->|?]%elem_of_cons & Hk)].
        * left. by right.
        * left. by left.
        * right. eauto. }
  rewrite H. split; [|by right]. intros [Hk|?]; [|done].
  by apply elem_of_nil in Hk.
Qed.

(** The inner loop records the reason of the item whose key is the
    name, if the dict has one, and goes on with what follows. *)
Lemma for_items_recorded name items k : ∀ s,
  ∃ s', bot s' = bot s
    ∧ recorded (BannedUsernameRejector.for_items name items k) s
      = match dict_get name items with
        | Some original =>
            Rejection (BannedUsernameRejector.reason original)
            :: recorded k s'
        | None => recorded k s
        end
    ∧ run (BannedUsernameRejector.for_items name items k) s
      = match dict_get name items with
        | Some original => run k s'
        | None => run k s
        end.
Proof.
  induction items as [|[normalized original] items IH]; intros s.
  - by exists s.
  - unfold dict_get. simpl.
    destruct (decide (normalized = name)) as [->|Hne].
    + rewrite (bool_decide_eq_false_2 (name ≠ name)) by tauto.
      simpl. eexists. split; [|split; reflexivity]. reflexivity.
    + rewrite (bool_decide_eq_true_2 (name ≠ normalized)) by done.
      destruct (IH s) as (s' & Hb & Hrec & Hrun).
      exists s'. split; [done|]. unfold dict_get in Hrec, Hrun.
      rewrite Hrec, Hrun.
      by destruct (list_find (λ kv, kv.1 = name) items) as [[i kv]|].
Qed.

(** The outer loop records one reason per username whose normalized
    form is a key of the dict, and returns. *)
Lemma for_usernames_recorded items names : ∀ s,
  recorded (BannedUsernameRejector.for_usernames items names) s
  = omap (λ u, Rejection ∘ BannedUsernameRejector.reason
               <$> dict_get (BannedUsernameRejector._normalize u) items)
         names
  ∧ (run (BannedUsernameRejector.for_usernames items names) s).2 = None.
Proof.
  induction names as [|u names IH]; intros s; simpl; [done|].
  destruct (for_items_recorded (BannedUsernameRejector._normalize u) items
              (BannedUsernameRejector.for_usernames items names) s)
    as (s' & _ & -> & ->).
  destruct (dict_get _ items) as [original|]; simpl.
  - destruct (IH s') as [-> ->]. done.
  - destruct (IH s) as [-> ->]. done.
Qed.

(** C8.  Without the permission to read the ban list the rejector
    returns at once and leaves the whole state as it was.  With it, the
    rejector returns normally, records rejection reasons only, and records
    one exactly when the normal form of some known username of the
    member (its case folded, its white space collapsed) is the very
    string that is the normal form of the name of some user banned from
    this guild. *)
Theorem banned_username_rejector_exact_match (s : State) :
  let v := BannedUsernameRejector.validate_member in
  if ban_members (Member.guild_permissions (Guild.me (guild (ctx s))))
  then
    (run v s).2 = None
    ∧ Forall (λ r, is_approval r = false) (recorded v s)
    ∧ (recorded v s ≠ []
       ↔ ∃ username ban,
           username ∈ (usernames s).1
           ∧ ban ∈ Guild.bans (guild (ctx s))
           ∧ normal_form username
             = normal_form (User.name (BanEntry.user ban)))
  else run v s = (s, None) ∧ recorded v s = [].
Proof.
  intros v. unfold v, BannedUsernameRejector.validate_member.
  cbn [run recorded].
  destruct (ban_members _) eqn:Hperm; cbn [negb]; [|done].
  cbn [run recorded].
  destruct (usernames s) as [names s'] eqn:Hnames. cbn [fst].
  destruct (for_usernames_recorded
              (BannedUsernameRejector.normalized_bans
                 (Guild.bans (guild (ctx s))))
              (elements names) s') as [-> ->].
  split; [done|]. split.
  - apply Forall_forall. intros r (u & _ & Hr)%list_elem_of_omap.
    destruct (dict_get _ _); [|done]. by injection Hr as <-.
  - split.
    + intros Hne.
      destruct (omap _ (elements names)) as [|r rs] eqn:E; [done|].
      assert (r ∈ r :: rs) as Hr by left. rewrite <-E in Hr.
      apply list_elem_of_omap in Hr as (u & Hu & Hget).
      assert (is_Some (dict_get (BannedUsernameRejector._normalize u)
                (BannedUsernameRejector.normalized_bans
                   (Guild.bans (guild (ctx s)))))) as Hsome.
      { destruct (dict_get _ _); [by eexists|done]. }
      apply dict_get_is_Some, normalized_bans_keys in Hsome
        as (ban & Hban & Heq).
      exists u, ban. rewrite <-!normalize_normal_form.
      by rewrite <-elem_of_elements.
    + intros (u & ban & Hu & Hban & Heq) Hnil.
      rewrite <-!normalize_normal_form in Heq.
      assert (is_Some (dict_get (BannedUsernameRejector._normalize u)
                (BannedUsernameRejector.normalized_bans
                   (Guild.bans (guild (ctx s)))))) as [o Ho].
      { apply dict_get_is_Some, normalized_bans_keys. eauto. }
      assert (Rejection (BannedUsernameRejector.reason o)
              ∈ omap (λ u, Rejection ∘ BannedUsernameRejector.reason
                           <$> dict_get (BannedUsernameRejector._normalize u)
                                 (BannedUsernameRejector.normalized_bans
                                    (Guild.bans (guild (ctx s)))))
                     (elements names)) as Hin.
      { apply list_elem_of_omap. exists u.
        split; [by apply elem_of_elements|]. by rewrite Ho. }
      rewrite Hnil in Hin. by apply elem_of_nil in Hin.
Qed.

(** The rejector at work on the sample guild, where [Evil  Bob] and
    [Mallory] are banned: a name equal up to case and white space is
    rejected, a name that only contains a banned name is not, and nothing
    happens when the ban list may not be read. *)
Example banned_username_rejector_samples :
  let v := BannedUsernameRejector.validate_member in
  BannedUsernameRejector._normalize " EVIL bob  " = "evil bob"%string
  ∧ normal_form "Evil  Bob" = "evil bob"%string
  ∧ normal_form "Mallory2" ≠ normal_form "Mallory"
  ∧ rejection_reasons (ctx (run v (sample_state_named " EVIL bob  " true)).1)
    = ["Exact username match with banned user: `Evil  Bob`."%string]
  ∧ rejection_reasons (ctx (run v (sample_state_named "Mallory2" true)).1)
    = []
  ∧ run v (sample_state_named "Mallory" false)
    = (sample_state_named "Mallory" false, None).
Proof. vm_compute. done. Qed.

(** ** Purge *)

(** C6, as the code has it.  A member is kickable exactly when it does
    not hold the trust role, did not join at or after the cutoff (it
    joined before it, or its join time is not known), is not a bot and is
    not a booster; and a scan of a guild whose members are one who holds
    the role, a bot, a booster and a kickable member counts one. *)
Theorem is_kickable_iff (role cutoff_time : Z) (m : Member.t) :
  (Purge._is_kickable role cutoff_time m = true
   ↔ (role ∉ Member.roles m)
     ∧ (Member.joined_at m = None
        ∨ ∃ joined_at, Member.joined_at m = Some joined_at
                       ∧ (joined_at < cutoff_time)%Z)
     ∧ Member.bot m = false
     ∧ Member.premium_since m = None)
  ∧ ∀ (g : Guild.t) (w : Platform.t) (trusted a_bot booster : Member.t),
      Guild.validation_role g = Some role →
      kick_members (Member.guild_permissions (Guild.me g)) = true →
      role ∈ Member.roles trusted →
      Member.bot a_bot = true →
      Member.premium_since booster ≠ None →
      Purge._is_kickable role cutoff_time m = true →
      Platform.members w = [trusted; a_bot; booster; m] →
      (Purge.purge_guild g cutoff_time true w).2 = Ok (Some 1).
Proof.
  split.
  - unfold Purge._is_kickable. simpl.
    rewrite negb_true_iff, !orb_false_iff, !bool_decide_eq_false.
    assert (¬ Member.premium_since m ≠ None ↔ Member.premium_since m = None)
      as Hprem_iff.
    { destruct (Member.premium_since m); split; try done.
      intros H. by destruct H. intros _ H. by apply H. }
    rewrite Hprem_iff.
    destruct (Member.joined_at m) as [joined_at|]; split.
    + intros (Hrole & Hnew%bool_decide_eq_false & Hbot & Hprem & _).
      split; [done|]. split; [|done].
      right. exists joined_at. split; [done|lia].
    + intros (Hrole & [?|(t & [= <-] & Ht)] & Hbot & Hprem); [done|].
      split; [done|]. split; [|done]. apply bool_decide_eq_false. lia.
    + intros (Hrole & _ & Hbot & Hprem & _).
      split; [done|]. split; [by left|done].
    + intros (Hrole & _ & Hbot & Hprem). done.
  - intros g w trusted a_bot booster Hrole Hperm Htrusted Hbot Hbooster
      Hstale Hmembers.
    unfold Purge.purge_guild. rewrite Hrole, Hperm. simpl.
    rewrite Hmembers. simpl.
    assert (Purge._is_kickable role cutoff_time trusted = false) as ->.
    { unfold Purge._is_kickable. simpl.
      by rewrite (bool_decide_eq_true_2 (role ∈ Member.roles trusted)). }
    assert (Purge._is_kickable role cutoff_time a_bot = false) as ->.
    { unfold Purge._is_kickable. simpl.
      rewrite Hbot. by rewrite !orb_true_r. }
    assert (Purge._is_kickable role cutoff_time booster = false) as ->.
    { unfold Purge._is_kickable. simpl.
      rewrite (bool_decide_eq_true_2 (Member.premium_since booster ≠ None))
        by done.
      by rewrite !orb_true_r. }
    rewrite Hstale. done.
Qed.

(** C6, the claim refuted: a member whose join time is not known did not
    join before the cutoff, and is kickable. *)
Lemma is_kickable_without_join_time :
  Purge._is_kickable 7 500 sample_no_join_time = true
  ∧ Member.joined_at sample_no_join_time = None
  ∧ (Purge.purge_guild sample_guild 500 true
       (sample_platform [sample_no_join_time] grant_all)).2 = Ok (Some 1).
Proof. vm_compute. done. Qed.

(** The theorem on the members of the specification's example. *)
Lemma is_kickable_iff_witness :
  (Purge.purge_guild sample_guild 500 true
     (sample_platform
        [sample_trusted; sample_bot_member; sample_booster; sample_stale]
        grant_all)).2 = Ok (Some 1).
Proof.
  destruct (is_kickable_iff 7 500 sample_stale) as [_ Hscan].
  apply (Hscan sample_guild _ sample_trusted sample_bot_member
           sample_booster).
  - reflexivity.
  - reflexivity.
  - vm_compute. left.
  - reflexivity.
  - discriminate.
  - vm_compute. reflexivity.
  - reflexivity.
Defined.

(** C10.  Without a trust role, or without the permission to kick, both
    the scan and the purge return at once with no count: the platform is
    not asked for the members and is left as it was. *)
Theorem purge_guild_not_configured (g : Guild.t) (cutoff_time : Z)
    (dry_run : bool) (w : Platform.t) :
  Guild.validation_role g = None
  ∨ kick_members (Member.guild_permissions (Guild.me g)) = false →
  Purge.purge_guild g cutoff_time dry_run w = (w, Ok None).
Proof.
  intros [Hrole|Hperm]; unfold Purge.purge_guild.
  - by rewrite Hrole.
  - rewrite Hperm. by destruct (Guild.validation_role g).
Qed.

(** The sample guild without a trust role: one stale member, no count,
    no request, whether asked to scan or to purge. *)
Lemma purge_guild_not_configured_witness :
  let w := sample_platform [sample_stale] grant_all in
  Purge.purge_guild sample_guild_no_role 500 true w = (w, Ok None)
  ∧ Purge.purge_guild sample_guild_no_role 500 false w = (w, Ok None)
  ∧ (Purge.purge_guild sample_guild 500 false w).2 = Ok (Some 1).
Proof.
  intros w. split; [|split].
  - apply purge_guild_not_configured. by left.
  - apply purge_guild_not_configured. by left.
  - vm_compute. done.
Defined.

Lemma without_nil ms : without [] ms = ms.
Proof.
  unfold without. induction ms as [|m ms IH]; [done|].
  rewrite filter_cons_True by apply not_elem_of_nil. by rewrite IH.
Qed.

Lemma without_without ids1 ids2 ms :
  without ids2 (without ids1 ms) = without (ids1 ++ ids2) ms.
Proof.
  unfold without. rewrite list_filter_filter. apply list_filter_iff.
  intros x. rewrite not_elem_of_app. tauto.
Qed.

(** The scan: no task is ever made, the platform is left as it is, and
    the count grows by the number of kickable members. *)
Lemma for_members_dry_run g role cutoff_time fetched : ∀ count w,
  Purge.for_members g role cutoff_time true fetched count [] w
  = (w, Ok (count + length (kickable role cutoff_time fetched))).
Proof.
  unfold kickable.
  induction fetched as [|m fetched IH]; intros count w; simpl.
  - by rewrite Nat.add_0_r.
  - destruct (Purge._is_kickable role cutoff_time m) eqn:E; simpl.
    + rewrite filter_cons_True by done. rewrite IH. simpl.
      by rewrite Nat.add_succ_r.
    + rewrite filter_cons_False by (by rewrite E). apply IH.
Qed.




Lemma granted_outcome w w' m :
  Platform.outcome w' = Platform.outcome w → granted w' m = granted w m.
Proof. intros H. unfold granted. by rewrite H. Qed.

(** One task, whatever the platform answers: the member has left
    exactly when its notice and its kick were both granted. *)
Lemma kick_member_any g m w :
  Platform.outcome (Purge._kick_member g m w).1 = Platform.outcome w
  ∧ Platform.members (Purge._kick_member g m w).1
    = without (if granted w m then [Member.id m] else [])
              (Platform.members w).
Proof.
  unfold Purge._kick_member, Platform.send_dm, Platform.kick,
    Platform.request, granted.
  simpl.
  destruct (Platform.outcome w (SendDm (Member.id m))) as [e1|] eqn:E1.
  - rewrite bool_decide_eq_false_2 by (by intros [? _]).
    rewrite without_nil. by destruct e1.
  - destruct (Platform.outcome w (Kick (Member.id m))) as [e2|] eqn:E2.
    + rewrite bool_decide_eq_false_2 by (by intros [_ ?]).
      rewrite without_nil. by destruct e2.
    + rewrite bool_decide_eq_true_2 by done. simpl. split; [done|].
      unfold without. apply list_filter_iff. intros x.
      by rewrite list_elem_of_singleton.
Qed.

(** A batch, whatever the platform answers: every task runs. *)
Lemma gather_any g tasks : ∀ w,
  Platform.outcome (Purge.gather g tasks w).1 = Platform.outcome w
  ∧ Platform.members (Purge.gather g tasks w).1
    = without (Member.id <$> filter (λ m, granted w m = true) tasks)
              (Platform.members w).
Proof.
  induction tasks as [|m tasks IH]; intros w; simpl.
  - by rewrite without_nil.
  - destruct (kick_member_any g m w) as [Ho1 Hm1].
    destruct (Purge._kick_member g m w) as [w1 r1]. simpl in *.
    destruct (IH w1) as [Ho2 Hm2].
    destruct (Purge.gather g tasks w1) as [w2 r2]. simpl in *.
    split; [by rewrite Ho2|].
    rewrite Hm2, Hm1, without_without. f_equal.
    assert (filter (λ m0, granted w1 m0 = true) tasks
            = filter (λ m0, granted w m0 = true) tasks) as ->.
    { apply list_filter_iff. intros x. by rewrite (granted_outcome w w1). }
    rewrite filter_cons. destruct (granted w m) eqn:Eg.
    + by rewrite decide_True by done.
    + by rewrite decide_False by done.
Qed.








(** ** Manual override *)

Lemma same_platform_refl w : same_platform w w.
Proof. by repeat split. Qed.

(** C9.  A reaction from a member who does not hold the permission it
    asks for (role management to approve, kick to kick, ban to ban) is
    ignored: the mapped action is not performed, and members, bans,
    messages, moderation log, dispatched events and requests to the
    platform are what they were. *)
Theorem unauthorized_reaction_is_ignored (int16 : string → option Z)
    (b : Bot.t) (payload : Payload.t) (w : Platform.t) :
  (∀ user g, Payload.member payload = Some (user, g) →
     ¬ holds_permission_for (Payload.emoji_name payload)
         (Member.guild_permissions user)) →
  same_platform w (Override.on_raw_reaction_add int16 b payload w).1.
Proof.
  intros Hunauth. unfold Override.on_raw_reaction_add.
  destruct (Override.get_message b payload w) as [message|error];
    [|apply same_platform_refl].
  destruct (Payload.member payload) as [[user g]|] eqn:Hmember;
    [|apply same_platform_refl].
  specialize (Hunauth user g eq_refl).
  destruct message as [message|]; [|apply same_platform_refl].
  destruct (Message.embeds message) as [|embed embeds];
    [apply same_platform_refl|].
  case_bool_decide; [apply same_platform_refl|].
  destruct (int16 (Embed.footer_text embed)) as [target_id|];
    [|apply same_platform_refl].
  destruct (Platform.get_member_async target_id w) as [target|];
    [|by repeat split].
  unfold Override.action, holds_permission_for in *. cbn zeta.
  repeat case_decide; try apply same_platform_refl.
  - destruct (manage_roles (Member.guild_permissions user)) eqn:Hp;
      [|apply same_platform_refl].
    destruct Hunauth. by left.
  - destruct (kick_members (Member.guild_permissions user)) eqn:Hp;
      [|apply same_platform_refl].
    destruct Hunauth. right. by left.
  - destruct (ban_members (Member.guild_permissions user)) eqn:Hp;
      [|apply same_platform_refl].
    destruct Hunauth. right. by right.
Qed.

(** The theorem on the sample guild: the kick reaction of a moderator
    who may not kick changes nothing; the same reaction of a moderator who
    may kick removes the target and leaves a note in the moderation
    log. *)
Lemma unauthorized_reaction_is_ignored_witness :
  same_platform (sample_override_platform false)
    (Override.on_raw_reaction_add sample_int16 sample_bot
       (sample_kick_payload false) (sample_override_platform false)).1
  ∧ (let after :=
       (Override.on_raw_reaction_add sample_int16 sample_bot
          (sample_kick_payload true) (sample_override_platform true)).1 in
     Platform.members after = [sample_moderator true]
     ∧ Platform.modlog after = [Kicked 2 14]
     ∧ Platform.calls after = [Kick 14]).
Proof.
  split.
  - apply unauthorized_reaction_is_ignored.
    intros user g [= <- <-]. vm_compute.
    intros [[? ?]|[[_ ?]|[? _]]]; discriminate.
  - vm_compute. done.
Defined.

(** * Further properties *)

(** ** The context *)

(** X1.  The property [usernames] is computed once: the names are the
    member's own name, if it has one, and the names stored for its id;
    once computed, a later read gives the same set and changes nothing,
    whatever was stored for the user meanwhile. *)
Theorem usernames_memoized (s : State) (b' : Bot.t) :
  let names := (usernames s).1 in
  let s1 := (usernames s).2 in
  usernames (set_bot b' s1) = (names, set_bot b' s1)
  ∧ match _usernames (ctx s) with
    | Some known => names = known ∧ s1 = s
    | None =>
        ∀ n, n ∈ names
             ↔ Member.name (member (ctx s)) = Some n
               ∨ (Member.id (member (ctx s)), n) ∈ Bot.usernames (bot s)
    end.
Proof.
  intros names s1. unfold names, s1, usernames.
  destruct (_usernames (ctx s)) as [known|] eqn:E; simpl.
  - by rewrite E.
  - split; [done|]. intros n.
    rewrite elem_of_union, elem_of_list_to_set, list_elem_of_fmap.
    split.
    + intros [Hn|([i x] & -> & Hrow%list_elem_of_filter)].
      * left. destruct (Member.name (member (ctx s))); set_solver.
      * right. destruct Hrow as [Hi Hrow]. simpl in Hi. by subst i.
    + intros [Hn|Hrow].
      * left. rewrite Hn. set_solver.
      * right. exists (Member.id (member (ctx s)), n). split; [done|].
        by apply list_elem_of_filter.
Qed.

(** ** The pipeline *)

Lemma run_log v : ∀ s, log (run v s).1 = log s.
Proof.
  induction v as [| |reason k IH|reason k IH|k IH|k IH|A call k IH];
    intros s; simpl; try done.
  - destruct reason; simpl; [by rewrite IH|done].
  - destruct reason; simpl; [by rewrite IH|done].
  - unfold usernames. destruct (_usernames (ctx s)); by rewrite IH.
  - destruct (call (bot s)) as [a b]. by rewrite IH.
Qed.

(** X2.  The pipeline writes one line to the log for each validator of
    the chain that raised, and no validator can write to the log or
    erase it: after the chain the log is what it was, followed by as
    many lines as there were faults. *)
Theorem one_log_line_per_fault (validators : list Validator) (s : State) :
  log (validate_member validators s).1
  = log s ++ replicate (length (chain_faults validators s))
                       "Error while running validator:"%string.
Proof.
  revert s. induction validators as [|v vs IH]; intros s; simpl.
  - by rewrite app_nil_r.
  - rewrite IH. unfold run_validator.
    pose proof (run_log v s) as Hlog.
    destruct (run v s) as [s' [error|]]; simpl in *.
    + by rewrite Hlog, <-app_assoc.
    + by rewrite Hlog.
Qed.

(** ** StringFilterRejector *)

Lemma for_filters_recorded self value fs k : ∀ s,
  ∃ s', bot s' = bot s
    ∧ _usernames (ctx s') = _usernames (ctx s)
    ∧ recorded (StringFilterRejector.for_filters self value fs k) s
      = (Rejection ∘ StringFilterRejector.reason self
         <$> (filter (λ fr, StringFilterRejector.match_func self fr.2 value
                            = true) fs).*1)
        ++ recorded k s'
    ∧ (run (StringFilterRejector.for_filters self value fs k) s).2
      = (run k s').2.
Proof.
  induction fs as [|[filter_name regex] fs IH]; intros s.
  - by exists s.
  - simpl.
    destruct (StringFilterRejector.match_func self regex value) eqn:E.
    + rewrite filter_cons_True by done. simpl.
      edestruct IH as (s' & Hb & Hu & -> & ->).
      exists s'. split; [by rewrite Hb|]. split; [by rewrite Hu|]. done.
    + rewrite filter_cons_False by (simpl; by rewrite E). apply IH.
Qed.

Lemma for_values_recorded self values : ∀ s,
  recorded (StringFilterRejector.for_values self values Return) s
  = (Rejection ∘ StringFilterRejector.reason self
     <$> (values ≫= matching_filters self))
  ∧ (run (StringFilterRejector.for_values self values Return) s).2 = None.
Proof.
  induction values as [|value values IH]; intros s; simpl; [done|].
  destruct (for_filters_recorded self value
              (StringFilterRejector.filters self)
              (StringFilterRejector.for_values self values Return) s)
    as (s' & _ & _ & -> & ->).
  destruct (IH s') as [-> ->]. by rewrite fmap_app.
Qed.

Lemma string_filter_recorded self s :
  (run (StringFilterRejector.validate_member self) s).2 = None
  ∧ recorded (StringFilterRejector.validate_member self) s
    = (Rejection ∘ StringFilterRejector.reason self
       <$> (field_values self s ≫= matching_filters self)).
Proof.
  unfold StringFilterRejector.validate_member, field_values.
  destruct (StringFilterRejector.subfield self) as [f|]; simpl.
  - destruct (for_values_recorded self (f (ctx s)) s) as [-> ->]. done.
  - destruct (usernames s) as [names s'] eqn:E. simpl.
    destruct (for_values_recorded self (elements names) s') as [-> ->].
    done.
Qed.

(** X3.  A string filter never raises and records one reason for every
    pair of a value of the field and a filter that matches it, values
    first, filters in their order; reasons are not merged, and the text
    of each is the prefix, then the name of the filter between
    backquotes. *)
Theorem string_filter_rejector_reasons (self : StringFilterRejector.t)
    (s : State) :
  let v := StringFilterRejector.validate_member self in
  (run v s).2 = None
  ∧ recorded v s
    = (λ filter_name,
         Rejection (StringFilterRejector.prefix self
                    +:+ "Matches: `" +:+ filter_name +:+ "`"))
      <$> (field_values self s ≫= matching_filters self).
Proof.
  intros v. unfold v. destruct (string_filter_recorded self s) as [-> ->].
  done.
Qed.

Lemma re_match_search regex value :
  re_match regex value = true → re_search regex value = true.
Proof. intros H. destruct value; simpl in *; by rewrite H. Qed.

Lemma sublist_bind_filters {A B} (f g : A → list B) (l : list A) :
  (∀ x, f x `sublist_of` g x) → (l ≫= f) `sublist_of` (l ≫= g).
Proof.
  intros Hfg. induction l as [|x l IH]; simpl; [done|]. by apply sublist_app.
Qed.

Lemma sublist_filter_impl {A} (P Q : A → Prop)
    `{!∀ x, Decision (P x), !∀ x, Decision (Q x)} (l : list A) :
  (∀ x, P x → Q x) → filter P l `sublist_of` filter Q l.
Proof.
  intros Himpl. induction l as [|x l IH]; [done|]. rewrite !filter_cons.
  destruct (decide (P x)) as [Hp|Hp].
  - rewrite decide_True by auto. by constructor.
  - destruct (decide (Q x)); [by constructor|done].
Qed.

(** X4.  Whatever a rejector built with [full_match] records, the
    rejector built from the same arguments without it records as well,
    in the same order: asking for a full match only ever removes
    reasons. *)
Theorem full_match_records_less (gf : string → Pattern)
    (prefix : option string) (filters : list string)
    (subfield : option (ValidationContext → list string)) (s : State) :
  recorded (StringFilterRejector.validate_member
              (StringFilterRejector.__init__ gf prefix filters true
                 subfield)) s
  `sublist_of`
  recorded (StringFilterRejector.validate_member
              (StringFilterRejector.__init__ gf prefix filters false
                 subfield)) s.
Proof.
  destruct (string_filter_recorded
              (StringFilterRejector.__init__ gf prefix filters true subfield)
              s) as [_ ->].
  destruct (string_filter_recorded
              (StringFilterRejector.__init__ gf prefix filters false subfield)
              s) as [_ ->].
  apply fmap_sublist. unfold field_values. cbn [StringFilterRejector.subfield
    StringFilterRejector.__init__].
  apply sublist_bind_filters. intros value. unfold matching_filters.
  apply fmap_sublist. cbn [StringFilterRejector.filters
    StringFilterRejector.match_func StringFilterRejector.__init__].
  apply sublist_filter_impl. intros [f r]. apply re_match_search.
Qed.

(** ** BannedUsernameRejector *)

Lemma dict_get_set_eq key value d :
  dict_get key (BannedUsernameRejector.dict_set key value d) = Some value.
Proof.
  unfold dict_get. induction d as [|[k v] d IH]; simpl.
  - by rewrite decide_True.
  - destruct (decide (k = key)) as [->|Hne]; simpl.
    + by rewrite decide_True.
    + rewrite decide_False by done.
      destruct (list_find _ (BannedUsernameRejector.dict_set key value d))
        as [[i kv]|]; [|done].
      simpl in *. by injection IH as ->.
Qed.

Lemma dict_get_set_ne key value d k' :
  k' ≠ key →
  dict_get k' (BannedUsernameRejector.dict_set key value d) = dict_get k' d.
Proof.
  intros Hne. unfold dict_get. induction d as [|[k v] d IH]; simpl.
  - by rewrite decide_False.
  - destruct (decide (k = key)) as [->|Hk]; simpl.
    + by rewrite !decide_False by done.
    + destruct (decide (k = k')) as [->|Hk']; [done|].
      destruct (list_find _ (BannedUsernameRejector.dict_set key value d))
        as [[i kv]|], (list_find _ d) as [[j kv']|]; simpl in *; congruence.
Qed.

(** The value the dict holds for a key is the name of the last banned
    user whose normalized name is the key. *)
Lemma dict_get_normalized_bans bans key :
  dict_get key (BannedUsernameRejector.normalized_bans bans)
  = User.name ∘ BanEntry.user
    <$> last (filter (λ ban, BannedUsernameRejector._normalize
                               (User.name (BanEntry.user ban)) = key) bans).
Proof.
  unfold BannedUsernameRejector.normalized_bans.
  assert (∀ d,
    dict_get key
      (foldl (λ d ban,
                let n := User.name (BanEntry.user ban) in
                BannedUsernameRejector.dict_set
                  (BannedUsernameRejector._normalize n) n d) d bans)
    = match last (filter (λ ban, BannedUsernameRejector._normalize
                                   (User.name (BanEntry.user ban)) = key)
                         bans) with
      | Some ban => Some (User.name (BanEntry.user ban))
      | None => dict_get key d
      end) as Hgen.
  { induction bans as [|ban bans IH]; intros d; simpl; [done|].
    rewrite IH, filter_cons.
    destruct (decide (BannedUsernameRejector._normalize
                        (User.name (BanEntry.user ban)) = key)) as [<-|Hne].
    - rewrite last_cons.
      destruct (last (filter _ bans)); [done|]. apply dict_get_set_eq.
    - destruct (last (filter _ bans)); [done|].
      by apply dict_get_set_ne. }
  rewrite Hgen. by destruct (last _).
Qed.

Lemma omap_length_le {A B} (f : A → option B) (l : list A) :
  length (omap f l) ≤ length l.
Proof.
  induction l as [|x l IH]; csimpl; [done|]. destruct (f x); csimpl; lia.
Qed.

(** X5.  The rejector records at most one reason per known username,
    however many banned users share its normalized name; the reason of a
    username names the banned user listed last among those whose
    normalized name equals that of the username. *)
Theorem banned_username_one_reason_per_name (s : State) :
  let v := BannedUsernameRejector.validate_member in
  let bans := Guild.bans (guild (ctx s)) in
  length (recorded v s) ≤ size (usernames s).1
  ∧ ∀ r, r ∈ recorded v s
         ↔ ban_members (Member.guild_permissions (Guild.me (guild (ctx s))))
           = true
           ∧ ∃ username ban,
               username ∈ (usernames s).1
               ∧ last (filter
                         (λ ban, BannedUsernameRejector._normalize
                                   (User.name (BanEntry.user ban))
                                 = BannedUsernameRejector._normalize username)
                         bans) = Some ban
               ∧ r = Rejection
                       ("Exact username match with banned user: `"
                        +:+ User.name (BanEntry.user ban) +:+ "`.").
Proof.
  intros v bans. unfold v, BannedUsernameRejector.validate_member.
  cbn [recorded].
  destruct (ban_members _) eqn:Hperm; cbn [negb].
  2:{ simpl. split; [lia|]. intros r. split.
      - intros Hr. by apply elem_of_nil in Hr.
      - by intros [? _]. }
  cbn [recorded].
  destruct (usernames s) as [names s'] eqn:Hnames. cbn [fst].
  destruct (for_usernames_recorded
              (BannedUsernameRejector.normalized_bans
                 (Guild.bans (guild (ctx s))))
              (elements names) s') as [-> _].
  split.
  - etrans; [apply omap_length_le|]. done.
  - intros r. rewrite list_elem_of_omap. split.
    + intros (u & Hu%elem_of_elements & Hget).
      rewrite dict_get_normalized_bans in Hget. fold bans in Hget.
      split; [done|].
      destruct (last (filter _ bans)) as [ban|] eqn:Hlast; [|done].
      simpl in Hget. injection Hget as <-. exists u, ban. done.
    + intros (_ & u & ban & Hu & Hlast & ->).
      exists u. split; [by apply elem_of_elements|].
      rewrite dict_get_normalized_bans. fold bans. by rewrite Hlast.
Qed.

(** ** Purge *)

(** The loop, whatever the platform answers and wherever it stops: the
    members that left are among the tasks and the kickable members
    fetched whose notice and kick were granted. *)
Lemma for_members_any g role cutoff_time dry_run fetched :
  ∀ count tasks w,
  ∃ ids,
    Platform.members
      (Purge.for_members g role cutoff_time dry_run fetched count tasks w).1
    = without ids (Platform.members w)
    ∧ Platform.outcome
        (Purge.for_members g role cutoff_time dry_run fetched count tasks w).1
      = Platform.outcome w
    ∧ ids ⊆ Member.id
            <$> filter (λ m, granted w m = true)
                  (tasks ++ kickable role cutoff_time fetched).
Proof.
  unfold kickable.
  induction fetched as [|m fetched IH]; intros count tasks w.
  - simpl. rewrite app_nil_r. case_bool_decide.
    + destruct (gather_any g tasks w) as [Ho Hm].
      destruct (Purge.gather g tasks w) as [w' [e|]]; simpl in *;
        by eexists.
    + exists []. rewrite without_nil. split; [done|]. split; [done|].
      apply list_subseteq_nil.
  - simpl. destruct (Purge._is_kickable role cutoff_time m) eqn:E; simpl.
    + rewrite filter_cons_True by done.
      set (tasks' := if negb dry_run then tasks ++ [m] else tasks).
      assert (Member.id <$> filter (λ m0, granted w m0 = true) tasks'
              ⊆ Member.id <$> filter (λ m0, granted w m0 = true)
                                (tasks ++ [m])) as Htasks'.
      { unfold tasks'. destruct dry_run; simpl; [|done].
        rewrite filter_app, fmap_app. set_solver. }
      replace (tasks ++ m :: filter
                 (λ m0, Purge._is_kickable role cutoff_time m0 = true) fetched)
        with ((tasks ++ [m]) ++ filter
                (λ m0, Purge._is_kickable role cutoff_time m0 = true) fetched)
        by (by rewrite <-app_assoc).
      case_bool_decide.
      * destruct (gather_any g tasks' w) as [Ho1 Hm1].
        destruct (Purge.gather g tasks' w) as [w1 [e|]] eqn:Eg; simpl in *.
        -- eexists. split; [exact Hm1|]. split; [done|].
           rewrite (filter_app _ (tasks ++ [m])), fmap_app. set_solver.
        -- destruct (IH (S count) [] w1) as (ids & Hm2 & Ho2 & Hsub).
           exists ((Member.id <$> filter (λ m0, granted w m0 = true) tasks')
                   ++ ids).
           split; [by rewrite Hm2, Hm1, without_without|].
           split; [by rewrite Ho2|].
           rewrite (filter_app _ (tasks ++ [m])), fmap_app.
           assert (filter (λ m0, granted w1 m0 = true)
                     ([] ++ filter (λ m0, Purge._is_kickable role cutoff_time
                                            m0 = true) fetched)
                   = filter (λ m0, granted w m0 = true)
                       (filter (λ m0, Purge._is_kickable role cutoff_time
                                        m0 = true) fetched)) as Hsame.
           { apply list_filter_iff. intros x.
             by rewrite (granted_outcome w w1). }
           rewrite Hsame in Hsub. set_solver.
      * destruct (IH (S count) tasks' w) as (ids & Hm2 & Ho2 & Hsub).
        exists ids. split; [done|]. split; [done|].
        rewrite filter_app, fmap_app in Hsub.
        rewrite (filter_app _ (tasks ++ [m])), fmap_app. set_solver.
    + rewrite filter_cons_False by (by rewrite E). apply IH.
Qed.

(** X6.  Whatever the platform answers, and whether the purge ends well
    or is cut short by an error, a member it removed was removed by a
    purge proper (not a scan) of a guild with a trust role, and has the
    id of a kickable member whose notice and kick the platform granted:
    no holder of the role, bot or booster is removed, and no member whose
    notice was refused. *)
Theorem purge_removes_only_kickable (g : Guild.t) (cutoff_time : Z)
    (dry_run : bool) (w : Platform.t) (x : Member.t) :
  x ∈ Platform.members w →
  x ∉ Platform.members (Purge.purge_guild g cutoff_time dry_run w).1 →
  dry_run = false
  ∧ ∃ role m,
      Guild.validation_role g = Some role
      ∧ m ∈ kickable role cutoff_time (Platform.members w)
      ∧ Member.id m = Member.id x
      ∧ Platform.outcome w (SendDm (Member.id m)) = None
      ∧ Platform.outcome w (Kick (Member.id m)) = None.
Proof.
  intros Hin Hout. unfold Purge.purge_guild in Hout.
  destruct (Guild.validation_role g) as [role|]; [|done].
  destruct (negb _); [done|].
  unfold Platform.fetch_members in Hout. cbn [fst snd] in Hout.
  destruct dry_run.
  - rewrite for_members_dry_run in Hout. done.
  - split; [done|]. exists role.
    destruct (for_members_any g role cutoff_time false (Platform.members w)
                0 [] (Platform.request FetchMembers w).1)
      as (ids & Hm & _ & Hsub).
    destruct (Purge.for_members _ _ _ _ _ _ _ _) as [w' [n|e]];
      simpl in Hm, Hout.
    all: rewrite Hm in Hout; unfold without in Hout;
      rewrite list_elem_of_filter in Hout;
      assert (Member.id x ∈ ids) as Hid
        by (destruct (decide (Member.id x ∈ ids)); [done|tauto]);
      apply Hsub, list_elem_of_fmap in Hid as (m & Heq & Hm');
      apply list_elem_of_filter in Hm' as [Hg Hm'];
      unfold granted in Hg; apply bool_decide_eq_true in Hg as [Hdm Hk];
      exists m; done.
Qed.

(** The theorem on the sample guild of five: the stale member is gone
    after the purge, and was kickable with both requests granted. *)
Lemma purge_removes_only_kickable_witness :
  ∃ role m,
    Guild.validation_role sample_guild = Some role
    ∧ m ∈ kickable role 500
            [sample_trusted; sample_bot_member; sample_booster;
             sample_stale; sample_no_join_time]
    ∧ Member.id m = Member.id sample_stale.
Proof.
  destruct (purge_removes_only_kickable sample_guild 500 false
              (sample_platform
                 [sample_trusted; sample_bot_member; sample_booster;
                  sample_stale; sample_no_join_time] grant_all)
              sample_stale) as (_ & role & m & Hrole & Hm & Hid & _).
  - vm_compute. do 3 right. left.
  - vm_compute. intros H. repeat (inversion H as [|? ? ? H']; clear H;
                                   rename H' into H).
  - by exists role, m.
Defined.

(** ** Manual override *)

(** X7.  When the platform grants or forbids the removal, a kick or a
    ban by reaction never raises and leaves exactly one note in the
    moderation log: the note of the removal, with the target gone from
    the guild (and on its ban list for a ban), or the note of the
    failure, with the guild as it was. *)
Theorem removal_by_reaction_leaves_one_note (g : Guild.t)
    (user target : Member.t) (w : Platform.t) :
  granted_or_forbidden (Platform.outcome w (Kick (Member.id target))) →
  granted_or_forbidden (Platform.outcome w (BanMember (Member.id target))) →
  let k := Override.kick_member_by_reaction g user target w in
  let b := Override.ban_member_by_reaction g user target w in
  let gone := filter (λ x, Member.id x ≠ Member.id target)
                     (Platform.members w) in
  (k.2 = None
   ∧ if decide (Platform.outcome w (Kick (Member.id target)) = None)
     then Platform.modlog k.1
          = Platform.modlog w ++ [Kicked (Member.id user) (Member.id target)]
          ∧ Platform.members k.1 = gone
     else Platform.modlog k.1
          = Platform.modlog w ++ [KickFailed (Member.id target)]
          ∧ Platform.members k.1 = Platform.members w)
  ∧ (b.2 = None
     ∧ if decide (Platform.outcome w (BanMember (Member.id target)) = None)
       then Platform.modlog b.1
            = Platform.modlog w
              ++ [Banned (Member.id user) (Member.id target)]
            ∧ Platform.members b.1 = gone
            ∧ Platform.banned b.1 = Platform.banned w ++ [Member.id target]
       else Platform.modlog b.1
            = Platform.modlog w ++ [BanFailed (Member.id target)]
            ∧ Platform.members b.1 = Platform.members w
            ∧ Platform.banned b.1 = Platform.banned w).
Proof.
  intros Hk Hb k b gone. unfold k, b, gone.
  unfold Override.kick_member_by_reaction, Override.ban_member_by_reaction,
    Platform.kick, Platform.ban, Platform.request.
  simpl. split.
  - destruct Hk as [-> | ->]; simpl; try case_decide; done.
  - destruct Hb as [-> | ->]; simpl; try case_decide; done.
Qed.

(** The theorem on the sample guild: on a platform that grants every
    request the kick leaves its note; on one that refuses kicks it leaves
    the note of the failure and the target stays. *)
Lemma removal_by_reaction_leaves_one_note_witness :
  Platform.modlog
    (Override.kick_member_by_reaction sample_guild (sample_moderator true)
       sample_stale (sample_platform [sample_stale] grant_all)).1
  = [Kicked 2 14]
  ∧ Platform.modlog
      (Override.kick_member_by_reaction sample_guild (sample_moderator true)
         sample_stale (sample_platform [sample_stale] forbid_kicks)).1
    = [KickFailed 14].
Proof.
  split.
  - destruct (removal_by_reaction_leaves_one_note sample_guild
                (sample_moderator true) sample_stale
                (sample_platform [sample_stale] grant_all))
      as [[_ Hk] _]; [by left|by left|].
    rewrite decide_True in Hk by done. apply Hk.
  - destruct (removal_by_reaction_leaves_one_note sample_guild
                (sample_moderator true) sample_stale
                (sample_platform [sample_stale] forbid_kicks))
      as [[_ Hk] _]; [by right|by left|].
    rewrite decide_False in Hk by done. apply Hk.
Defined.

(** X8.  A manual approval asks the platform for the trust role only
    when the guild has one resolved and the target does not hold it.
    Unless that request fails, it dispatches [verify_accept] (never
    [verify_reject]) and notes the member as verified, also when there
    was no role to give; when the request is forbidden it notes the
    attempt and dispatches nothing; any other error is raised with the
    moderation log untouched. *)
Theorem approve_by_reaction_outcomes (g : Guild.t) (user target : Member.t)
    (w : Platform.t) :
  let c := init target g (validation (Guild.config g)) in
  let r := Override.approve_member_by_reaction g user target w in
  let verified :=
    r.2 = None
    ∧ Platform.modlog r.1
      = Platform.modlog w
        ++ [ManuallyVerified (Member.id user) (Member.id target)]
    ∧ Platform.dispatched r.1
      = Platform.dispatched w ++ [("verify_accept"%string, Member.id target)]
  in
  let untouched :=
    Platform.calls r.1 = Platform.calls w
    ∧ Platform.members r.1 = Platform.members w in
  match role c with
  | None => verified ∧ untouched
  | Some ro =>
      if decide (ro ∈ Member.roles target) then verified ∧ untouched
      else
        Platform.calls r.1
        = Platform.calls w ++ [AddRoles (Member.id target) ro]
        ∧ match Platform.outcome w (AddRoles (Member.id target) ro) with
          | None => verified
          | Some Forbidden =>
              r.2 = None
              ∧ Platform.modlog r.1 = Platform.modlog w ++ [ApproveAttempted]
              ∧ Platform.dispatched r.1 = Platform.dispatched w
              ∧ Platform.members r.1 = Platform.members w
          | Some error =>
              r.2 = Some error
              ∧ Platform.modlog r.1 = Platform.modlog w
              ∧ Platform.dispatched r.1 = Platform.dispatched w
              ∧ Platform.members r.1 = Platform.members w
          end
  end.
Proof.
  intros c r verified untouched. unfold verified, untouched, r.
  unfold Override.approve_member_by_reaction, Override.verify_member,
    Override.apply_role.
  fold c. assert (member c = target) as -> by done.
  assert (approved c = true) as -> by done.
  destruct (role c) as [ro|]; [|done].
  destruct (decide (ro ∈ Member.roles target)) as [Hin|Hnin].
  - rewrite bool_decide_eq_false_2 by tauto. done.
  - rewrite bool_decide_eq_true_2 by done.
    unfold Platform.add_roles, Platform.request. simpl.
    destruct (Platform.outcome w (AddRoles (Member.id target) ro))
      as [[]|]; done.
Qed.

(** X9.  A reaction is turned away before any message is fetched, and
    leaves the platform as it was, when the bot does not know the guild,
    when it is the bot's own reaction, when the emoji is none of the
    three override reactions, or when the channel is not a channel of
    the guild or not its moderation log.  The handler then returns
    quietly if the payload carries the reacting member; if it carries
    none, as for a reaction outside a guild, the handler raises
    [AttributeError]. *)
Theorem reaction_outside_modlog_is_dropped (int16 : string → option Z)
    (b : Bot.t) (payload : Payload.t) (w : Platform.t) :
  match Payload.guild_id payload ≫= Bot.get_guild b with
  | None => True
  | Some known =>
      Member.id ∘ fst <$> Payload.member payload
      = Some (Member.id (Guild.me known))
      ∨ Payload.emoji_name payload ∉ Override.MODLOG_REACTIONS
      ∨ Payload.channel_id payload ∉ Guild.channels known
      ∨ modlog_channel_id (logging (Guild.config known))
        ≠ Payload.channel_id payload
  end →
  Override.get_message b payload w = Ok None
  ∧ Override.on_raw_reaction_add int16 b payload w
    = (w, match Payload.member payload with
          | Some _ => None
          | None => Some AttributeError
          end).
Proof.
  intros Hdrop.
  assert (Override.get_message b payload w = Ok None) as Hnone.
  { unfold Override.get_message.
    destruct (Payload.guild_id payload ≫= Bot.get_guild b) as [known|];
      [|done].
    destruct (decide (Member.id ∘ fst <$> Payload.member payload
                      = Some (Member.id (Guild.me known)))) as [Hme|Hme].
    { by rewrite (bool_decide_eq_true_2 _ Hme). }
    rewrite (bool_decide_eq_false_2 _ Hme).
    destruct (decide (Payload.emoji_name payload ∈ Override.MODLOG_REACTIONS))
      as [Hemoji|Hemoji].
    2:{ by rewrite (bool_decide_eq_false_2 _ Hemoji). }
    rewrite (bool_decide_eq_true_2 _ Hemoji). simpl.
    unfold Guild.get_channel.
    destruct (decide (Payload.channel_id payload ∈ Guild.channels known))
      as [Hch|Hch]; [|done].
    destruct Hdrop as [?|[?|[?|Hlog]]]; try done.
    by rewrite bool_decide_eq_true_2. }
  split; [done|].
  unfold Override.on_raw_reaction_add. rewrite Hnone.
  by destruct (Payload.member payload) as [[user g]|].
Qed.

(** The kick reaction of the sample moderator in a channel that is not
    the moderation log, and a reaction outside any guild. *)
Lemma reaction_outside_modlog_is_dropped_witness :
  let payload :=
    {| Payload.guild_id := Some 10%Z; Payload.channel_id := 51;
       Payload.message_id := 900;
       Payload.member := Some (sample_moderator true, sample_guild);
       Payload.emoji_name := Override.KICK_REACTION |} in
  let outside :=
    {| Payload.guild_id := None; Payload.channel_id := 51;
       Payload.message_id := 900; Payload.member := None;
       Payload.emoji_name := Override.KICK_REACTION |} in
  Override.on_raw_reaction_add sample_int16 sample_bot payload
    (sample_override_platform true)
  = (sample_override_platform true, None)
  ∧ Override.on_raw_reaction_add sample_int16 sample_bot outside
      (sample_override_platform true)
    = (sample_override_platform true, Some AttributeError).
Proof.
  intros payload outside. split.
  - apply (reaction_outside_modlog_is_dropped sample_int16 sample_bot payload).
    vm_compute. right. right. left.
    intros H. repeat (inversion H as [|? ? ? H']; clear H; rename H' into H).
  - apply (reaction_outside_modlog_is_dropped sample_int16 sample_bot outside).
    exact I.
Defined.

Lemma get_message_same_messages b payload w w' :
  Platform.messages w' = Platform.messages w →
  Override.get_message b payload w' = Override.get_message b payload w.
Proof.
  intros Hm. unfold Override.get_message, Platform.fetch_message.
  by rewrite Hm.
Qed.

(** X10.  The handler does not remember what it did.  When a kick
    reaction leads to a granted kick, the same reaction once more finds
    no member for the id of the audit message: it writes that to the
    log and does nothing else. *)
Theorem second_kick_reaction_finds_nobody (int16 : string → option Z)
    (b : Bot.t) (payload : Payload.t) (w : Platform.t)
    (user target : Member.t) (g : Guild.t) (message : Message.t)
    (embed : Embed.t) (rest : list Embed.t) (target_id : Z) :
  Override.get_message b payload w = Ok (Some message) →
  Payload.member payload = Some (user, g) →
  Message.embeds message = embed :: rest →
  Message.author message = Member.id (Guild.me g) →
  int16 (Embed.footer_text embed) = Some target_id →
  Platform.get_member_async target_id w = Some target →
  Payload.emoji_name payload = Override.KICK_REACTION →
  kick_members (Member.guild_permissions user) = true →
  Platform.outcome w (Kick target_id) = None →
  let first := Override.on_raw_reaction_add int16 b payload w in
  let second := Override.on_raw_reaction_add int16 b payload first.1 in
  first.2 = None
  ∧ Platform.modlog first.1
    = Platform.modlog w ++ [Kicked (Member.id user) target_id]
  ∧ Platform.members first.1
    = filter (λ x, Member.id x ≠ target_id) (Platform.members w)
  ∧ second
    = (Platform.log_info (MemberNotFound target_id) first.1, None).
Proof.
  intros Hmsg Hmember Hembeds Hauthor Hid Htarget Hemoji Hperm Hgrant.
  assert (Member.id target = target_id) as Htid.
  { unfold Platform.get_member_async in Htarget.
    destruct (list_find _ (Platform.members w)) as [[i m]|] eqn:E; [|done].
    injection Htarget as ->. by apply list_find_Some in E as (_ & ? & _). }
  assert (Override.on_raw_reaction_add int16 b payload w
          = Override.kick_member_by_reaction g user target w) as Hfirst.
  { unfold Override.on_raw_reaction_add.
    rewrite Hmsg, Hmember, Hembeds, Hauthor.
    rewrite bool_decide_eq_false_2 by tauto.
    rewrite Hid, Htarget. cbn zeta. unfold Override.action.
    rewrite Hemoji. rewrite decide_False by done.
    rewrite decide_True by done. by rewrite Hperm. }
  intros first second. unfold second, first. rewrite Hfirst.
  destruct (Override.kick_member_by_reaction g user target w)
    as [w1 r1] eqn:Ek.
  assert (r1 = None
          ∧ Platform.modlog w1
            = Platform.modlog w ++ [Kicked (Member.id user) target_id]
          ∧ Platform.members w1
            = filter (λ x, Member.id x ≠ target_id) (Platform.members w)
          ∧ Platform.messages w1 = Platform.messages w)
    as (-> & Hmodlog & Hmembers & Hmessages).
  { unfold Override.kick_member_by_reaction, Platform.kick, Platform.request
      in Ek.
    rewrite Htid, Hgrant in Ek. simpl in Ek. by injection Ek as <- <-. }
  cbn [fst snd]. split; [done|]. split; [done|]. split; [done|].
  unfold Override.on_raw_reaction_add.
  rewrite (get_message_same_messages b payload w w1 Hmessages).
  rewrite Hmsg, Hmember, Hembeds, Hauthor.
  rewrite bool_decide_eq_false_2 by tauto. rewrite Hid.
  unfold Platform.get_member_async. rewrite Hmembers.
  assert (list_find (λ m, Member.id m = target_id)
            (filter (λ x, Member.id x ≠ target_id) (Platform.members w))
          = None) as ->; [|done].
  apply list_find_None, Forall_forall.
  intros x Hx%list_elem_of_filter. tauto.
Qed.

(** The theorem on the sample guild: the moderator who may kick reacts
    twice. *)
Lemma second_kick_reaction_finds_nobody_witness :
  let first :=
    Override.on_raw_reaction_add sample_int16 sample_bot
      (sample_kick_payload true) (sample_override_platform true) in
  (Override.on_raw_reaction_add sample_int16 sample_bot
     (sample_kick_payload true) first.1).2 = None
  ∧ Platform.info
      (Override.on_raw_reaction_add sample_int16 sample_bot
         (sample_kick_payload true) first.1).1
    = [KickedManually 14 2; MemberNotFound 14].
Proof.
  intros first.
  destruct (second_kick_reaction_finds_nobody sample_int16 sample_bot
              (sample_kick_payload true) (sample_override_platform true)
              (sample_moderator true) sample_stale sample_guild
              sample_audit_message {| Embed.footer_text := "e" |} [] 14)
    as (_ & _ & _ & Hsecond); try reflexivity.
  fold first in Hsecond. rewrite Hsecond. vm_compute. done.
Defined.

(** ** Announce *)

Lemma remove_not_elem_of x l : x ∉ l → Announce.remove x l = l.
Proof.
  induction l as [|y l IH]; intros Hx; simpl; [done|].
  apply not_elem_of_cons in Hx as [Hne Hx].
  rewrite decide_False by done. by rewrite IH.
Qed.

Lemma remove_app_new x l : x ∉ l → Announce.remove x (l ++ [x]) = l.
Proof.
  induction l as [|y l IH]; intros Hx; simpl.
  - by rewrite decide_True.
  - apply not_elem_of_cons in Hx as [Hne Hx].
    rewrite decide_False by done. by rewrite IH.
Qed.

Lemma remove_Permutation x l : x ∈ l → x :: Announce.remove x l ≡ₚ l.
Proof.
  induction l as [|y l IH]; intros Hx; simpl.
  - by apply elem_of_nil in Hx.
  - destruct (decide (y = x)) as [->|Hne]; [done|].
    apply elem_of_cons in Hx as [->|Hx]; [done|].
    rewrite Permutation_swap. by rewrite IH.
Qed.

(** X11.  On a list of channels without repetition, toggling a channel
    keeps the list without repetition and returns true exactly when the
    channel is in the list afterwards, which is exactly when it was not
    before; toggling twice answers the opposite the second time and
    gives back the same channels, and the very same list when the
    channel was not in it. *)
Theorem toggle_channel_twice (channel_id : Z) (channel_ids : list Z) :
  NoDup channel_ids →
  let first := Announce.__toggle_channel channel_id channel_ids in
  let second := Announce.__toggle_channel channel_id first.1 in
  NoDup first.1
  ∧ (first.2 = true ↔ channel_id ∈ first.1)
  ∧ (first.2 = true ↔ channel_id ∉ channel_ids)
  ∧ second.2 = negb first.2
  ∧ second.1 ≡ₚ channel_ids
  ∧ (channel_id ∉ channel_ids → second.1 = channel_ids).
Proof.
  intros Hnd first second. unfold second, first, Announce.__toggle_channel.
  destruct (decide (channel_id ∈ channel_ids)) as [Hin|Hnin]; cbn [fst snd].
  - pose proof (remove_Permutation channel_id channel_ids Hin) as Hperm.
    assert (NoDup (channel_id :: Announce.remove channel_id channel_ids))
      as [Hgone Hnd']%NoDup_cons by by rewrite Hperm.
    rewrite decide_False by done. cbn [fst snd].
    split; [done|]. split; [by split|]. split; [by split|].
    split; [done|]. split; [|done].
    etrans; [apply Permutation_app_comm|exact Hperm].
  - assert (channel_id ∈ channel_ids ++ [channel_id]) as Hnow
      by (apply elem_of_app; right; left).
    rewrite decide_True by done. cbn [fst snd].
    split.
    { apply NoDup_app. split; [done|]. split; [|apply NoDup_singleton].
      intros x Hx ->%list_elem_of_singleton. done. }
    split; [done|]. split; [done|]. split; [done|].
    rewrite remove_app_new by done. done.
Qed.

(** Channel 50 is switched on beside channels 7 and 9, and off again. *)
Lemma toggle_channel_twice_witness :
  Announce.__toggle_channel 50 [7; 9]%Z = ([7; 9; 50]%Z, true)
  ∧ (Announce.__toggle_channel 50
       (Announce.__toggle_channel 50 [7; 9]%Z).1).1 = [7; 9]%Z.
Proof.
  split; [reflexivity|].
  destruct (toggle_channel_twice 50 [7; 9]%Z) as (_ & _ & _ & _ & _ & Hsame).
  - repeat constructor; set_solver.
  - apply Hsame. set_solver.
Defined.

(** ** The command [validation purge] *)

(** X12.  In a guild without a trust role the command says so and goes
    on all the same: it asks whether to continue with no count to show,
    and on a yes reports a purge of no count; the platform is never
    asked anything. *)
Theorem purge_command_without_role (g : Guild.t) (check_time lookback : Z)
    (confirmed : bool) (w : Platform.t) :
  Guild.validation_role g = None →
  PurgeCommand.validation_purge g check_time lookback confirmed w
  = (w,
     [PurgeCommand.NoRoleConfigured; PurgeCommand.ContinueQuestion None;
      if confirmed then PurgeCommand.PurgedUsers None
      else PurgeCommand.Cancelled],
     None).
Proof.
  intros Hrole. unfold PurgeCommand.validation_purge, Purge.purge_guild.
  rewrite Hrole. by destruct confirmed.
Qed.

Lemma purge_command_without_role_witness :
  (PurgeCommand.validation_purge sample_guild_no_role 1000 500 true
     (sample_platform [sample_stale] grant_all)).1.2
  = [PurgeCommand.NoRoleConfigured; PurgeCommand.ContinueQuestion None;
     PurgeCommand.PurgedUsers None].
Proof.
  by rewrite (purge_command_without_role sample_guild_no_role 1000 500 true
                _ eq_refl).
Defined.

(** X13.  A purge that is not confirmed removes nobody and sends no
    notice: the platform was asked for the members at most, the command
    ends well, and the last thing it says is that the purge was
    cancelled. *)
Theorem purge_command_declined (g : Guild.t) (check_time lookback : Z)
    (w : Platform.t) :
  let r := PurgeCommand.validation_purge g check_time lookback false w in
  Platform.members r.1.1 = Platform.members w
  ∧ (Platform.calls r.1.1 = Platform.calls w
     ∨ Platform.calls r.1.1 = Platform.calls w ++ [FetchMembers])
  ∧ last r.1.2 = Some PurgeCommand.Cancelled
  ∧ r.2 = None.
Proof.
  intros r. unfold r, PurgeCommand.validation_purge, Purge.purge_guild.
  destruct (Guild.validation_role g) as [role|]; simpl.
  - destruct (kick_members _); simpl.
    + rewrite for_members_dry_run. simpl. split; [done|]. split; [by right|].
      done.
    + split; [done|]. split; [by left|]. done.
  - split; [done|]. split; [by left|]. done.
Qed.

(** ** Joining *)

Lemma run_ctx_fixed v : ∀ s,
  member (ctx (run v s).1) = member (ctx s)
  ∧ role (ctx (run v s).1) = role (ctx s).
Proof.
  induction v as [| |reason k IH|reason k IH|k IH|k IH|A call k IH];
    intros s; simpl; try done.
  - destruct reason as [r|]; simpl; [|done].
    match goal with
    | |- context [run k ?x] => by destruct (IH x) as [-> ->]
    end.
  - destruct reason as [r|]; simpl; [|done].
    match goal with
    | |- context [run k ?x] => by destruct (IH x) as [-> ->]
    end.
  - unfold usernames. destruct (_usernames (ctx s)) as [known|].
    + apply IH.
    + match goal with
      | |- context [run (k ?n) ?x] => by destruct (IH n x) as [-> ->]
      end.
  - destruct (call (bot s)) as [a b].
    by destruct (IH a (set_bot b s)) as [-> ->].
Qed.

Lemma validate_member_returns vs : ∀ s,
  (validate_member vs s).2 = approved (ctx (validate_member vs s).1).
Proof. induction vs as [|v vs IH]; intros s; simpl; [done|apply IH]. Qed.

Lemma validate_member_ctx_fixed vs : ∀ s,
  member (ctx (validate_member vs s).1) = member (ctx s)
  ∧ role (ctx (validate_member vs s).1) = role (ctx s).
Proof.
  induction vs as [|v vs IH]; intros s; simpl; [done|].
  destruct (IH (run_validator v s)) as [-> ->].
  rewrite run_validator_ctx. apply run_ctx_fixed.
Qed.

(** After a chain the two trails are what they were, followed by what
    the validators recorded, in chain order. *)
Lemma validate_member_trails vs : ∀ s,
  approval_reasons (ctx (validate_member vs s).1)
  = approval_reasons (ctx s) ++ approvals (concat (chain_recorded vs s))
  ∧ rejection_reasons (ctx (validate_member vs s).1)
    = rejection_reasons (ctx s) ++ rejections (concat (chain_recorded vs s)).
Proof.
  induction vs as [|v vs IH]; intros s; simpl.
  - by rewrite !app_nil_r.
  - destruct (IH (run_validator v s)) as [-> ->].
    rewrite run_validator_ctx.
    destruct (run_recorded v s) as (-> & -> & _).
    unfold approvals, rejections. by rewrite !omap_app, !app_assoc.
Qed.

(** X14.  On a join in a guild with validation enabled, the platform is
    asked for the trust role only when the chain approved the member, a
    role is resolved and the member does not hold it.  If that request
    fails, [on_join] raises its error, and no audit message is composed,
    no reaction added and no event dispatched.  Otherwise one event is
    dispatched, [verify_accept] or [verify_reject] after the verdict,
    and the audit message opens after the verdict and lists every
    approval reason and every rejection reason the chain recorded,
    whichever way the verdict went. *)
Theorem on_join_outcome (validators : list Validator) (sent : bool)
    (react : string → option Error) (m : Member.t) (g : Guild.t)
    (b : Bot.t) (w : Platform.t) :
  enabled (validation (Guild.config g)) = true →
  let s := fresh m g (validation (Guild.config g)) b in
  let verdict := (validate_member validators s).2 in
  let trail := concat (chain_recorded validators s) in
  let wanted :=
    if verdict then
      match role (init m g (validation (Guild.config g))) with
      | Some ro =>
          if decide (ro ∈ Member.roles m) then None
          else Some (AddRoles (Member.id m) ro)
      | None => None
      end
    else None in
  let r := Join.on_join validators sent react m g b w in
  Platform.calls (Join.platform r) = Platform.calls w ++ option_list wanted
  ∧ match wanted ≫= Platform.outcome w with
    | Some error =>
        Join.raised r = Some error
        ∧ Join.audit r = None
        ∧ Join.reactions r = []
        ∧ Platform.dispatched (Join.platform r) = Platform.dispatched w
    | None =>
        Join.audit r
        = Some {| Join.header :=
                    if verdict then Join.VerifiedUser (Member.id m)
                    else Join.RequiresManualVerification (Member.name m)
                           (Member.id m);
                  Join.approved_for :=
                    if decide (approvals trail = []) then None
                    else Some (approvals trail);
                  Join.rejected_for :=
                    if decide (rejections trail = []) then None
                    else Some (rejections trail) |}
        ∧ Platform.dispatched (Join.platform r)
          = Platform.dispatched w
            ++ [((if verdict then "verify_accept" else "verify_reject")
                 %string, Member.id m)]
    end.
Proof.
  intros Henabled s verdict trail wanted r.
  unfold r, Join.on_join. rewrite Henabled. cbn [negb].
  destruct (Join.add_reactions sent react Override.MODLOG_REACTIONS)
    as [added raised].
  change {| ctx := init m g (validation (Guild.config g)); bot := b;
            log := [] |} with s.
  pose proof (validate_member_returns validators s) as Hverdict.
  destruct (validate_member_ctx_fixed validators s) as [Hmember Hrole].
  destruct (validate_member_trails validators s) as [Happ Hrej].
  fold verdict in Hverdict. fold trail in Happ, Hrej.
  destruct (validate_member validators s) as [s1 v1]. cbn [fst snd] in *.
  change (member (ctx s)) with m in Hmember.
  change (role (ctx s)) with (role (init m g (validation (Guild.config g))))
    in Hrole.
  change (approval_reasons (ctx s)) with (@nil string) in Happ.
  change (rejection_reasons (ctx s)) with (@nil string) in Hrej.
  simpl in Happ, Hrej.
  assert (Join.compose (ctx s1)
          = {| Join.header :=
                 if verdict then Join.VerifiedUser (Member.id m)
                 else Join.RequiresManualVerification (Member.name m)
                        (Member.id m);
               Join.approved_for :=
                 if decide (approvals trail = []) then None
                 else Some (approvals trail);
               Join.rejected_for :=
                 if decide (rejections trail = []) then None
                 else Some (rejections trail) |}) as Hcompose.
  { unfold Join.compose. rewrite <-Hverdict, Hmember, Happ, Hrej.
    f_equal.
    - destruct (approvals trail); simpl; try case_bool_decide; try done;
        simpl in *; lia.
    - destruct (rejections trail); simpl; try case_bool_decide; try done;
        simpl in *; lia. }
  unfold Override.verify_member, Override.apply_role.
  rewrite Hrole, Hmember, <-Hverdict. unfold wanted.
  destruct (role (init m g (validation (Guild.config g)))) as [ro|].
  2:{ cbn [Join.audit Join.platform]. rewrite Hcompose.
      destruct verdict; simpl; by rewrite ?app_nil_r. }
  destruct verdict; cbn [andb].
  2:{ cbn [Join.audit Join.platform]. rewrite Hcompose. simpl.
      by rewrite app_nil_r. }
  destruct (decide (ro ∈ Member.roles m)) as [Hin|Hnin].
  - rewrite bool_decide_eq_false_2 by tauto.
    cbn [Join.audit Join.platform]. rewrite Hcompose. simpl.
    by rewrite app_nil_r.
  - rewrite bool_decide_eq_true_2 by done.
    unfold Platform.add_roles, Platform.request. simpl.
    destruct (Platform.outcome w (AddRoles (Member.id m) ro))
      as [error|] eqn:Eo.
    + simpl. done.
    + cbn [Join.audit Join.platform]. rewrite Hcompose. done.
Qed.

(** A member rejected for its avatar and approved for Nitro joins the
    sample guild.  On a platform that grants every request the role is
    asked for, [verify_accept] dispatched, and the audit message keeps
    the rejection.  On a platform that refuses the role, [on_join]
    raises, and there is no audit message and no event. *)
Lemma on_join_outcome_witness :
  let validators :=
    [AddRejectionReason (Some "User has no avatar."%string) Return;
     AddApprovalReason (Some "User has Nitro."%string) Return] in
  let r :=
    Join.on_join validators true grant_all_reactions sample_member
      sample_guild sample_bot (sample_platform [sample_member] grant_all) in
  let refused :=
    Join.on_join validators true grant_all_reactions sample_member
      sample_guild sample_bot
      (sample_platform [sample_member] forbid_roles) in
  (Platform.calls (Join.platform r) = [AddRoles 4 7]
   ∧ Join.audit r
     = Some {| Join.header := Join.VerifiedUser 4;
               Join.approved_for := Some ["User has Nitro."%string];
               Join.rejected_for := Some ["User has no avatar."%string] |}
   ∧ Platform.dispatched (Join.platform r) = [("verify_accept"%string, 4%Z)])
  ∧ (Platform.calls (Join.platform refused) = [AddRoles 4 7]
     ∧ Join.raised refused = Some Forbidden
     ∧ Join.audit refused = None
     ∧ Join.reactions refused = []
     ∧ Platform.dispatched (Join.platform refused) = []).
Proof.
  intros validators r refused. split.
  - destruct (on_join_outcome validators true grant_all_reactions
                sample_member sample_guild sample_bot
                (sample_platform [sample_member] grant_all) eq_refl)
      as [Hcalls [Haudit Hdispatched]].
    split; [exact Hcalls|]. split; [exact Haudit|exact Hdispatched].
  - destruct (on_join_outcome validators true grant_all_reactions
                sample_member sample_guild sample_bot
                (sample_platform [sample_member] forbid_roles) eq_refl)
      as [Hcalls Hraised].
    split; [exact Hcalls|]. exact Hraised.
Defined.

(** X15.  The reactions added to the audit message are the first of the
    three override reactions, in their order, up to the first the
    platform does not grant: none when no message was sent, all three
    when each is granted; a refusal ([Forbidden]) ends the loop without
    an error. *)
Theorem add_reactions_prefix (sent : bool) (react : string → option Error)
    (reactions : list string) :
  let r := Join.add_reactions sent react reactions in
  r.1 `prefix_of` reactions
  ∧ Forall (λ reaction, react reaction = None) r.1
  ∧ (sent = false → r = ([], None))
  ∧ (sent = true → Forall (λ reaction, react reaction = None) reactions →
     r = (reactions, None))
  ∧ (Forall (λ reaction, granted_or_forbidden (react reaction)) reactions →
     r.2 = None).
Proof.
  induction reactions as [|reaction rest IH]; simpl.
  - repeat split; done.
  - destruct sent; simpl.
    2:{ split; [apply prefix_nil|]. repeat split; done. }
    destruct IH as (Hpre & Hgranted & _ & Hall & Hsoft). simpl in *.
    destruct (react reaction) as [error|] eqn:E.
    + assert (([] : list string) `prefix_of` reaction :: rest) as Hnil
        by apply prefix_nil.
      destruct error; simpl; split; try done; split; try done;
        split; try done; split;
        try (intros _ Hf; apply Forall_cons in Hf as [Hf _]; congruence);
        intros Hf; apply Forall_cons in Hf as [[Hf|Hf] _]; congruence.
    + destruct (Join.add_reactions true react rest) as [added raised].
      simpl in *. split; [by apply prefix_cons|].
      split; [by constructor|]. split; [done|]. split.
      * intros _ Hf. apply Forall_cons in Hf as [_ Hf].
        by injection (Hall eq_refl Hf) as -> ->.
      * intros Hf. apply Forall_cons in Hf as [_ Hf]. auto.
Qed.

(** A platform that forbids the second of the three reactions: the
    first is added and the loop ends without an error. *)
Lemma add_reactions_prefix_witness :
  (Join.add_reactions true
     (λ reaction, if decide (reaction = Override.KICK_REACTION)
                  then Some Forbidden else None)
     Override.MODLOG_REACTIONS).2 = None.
Proof.
  destruct (add_reactions_prefix true
              (λ reaction, if decide (reaction = Override.KICK_REACTION)
                           then Some Forbidden else None)
              Override.MODLOG_REACTIONS) as (_ & _ & _ & _ & Hsoft).
  apply Hsoft. repeat constructor; by vm_compute; auto.
Defined.

(** ** The command [validation propagate] *)

Lemma NoDup_fmap_eq {A B} (f : A → B) (l : list A) x y :
  NoDup (f <$> l) → x ∈ l → y ∈ l → f x = f y → x = y.
Proof.
  induction l as [|a l IH]; intros Hnd Hx Hy Hf; [by apply elem_of_nil in Hx|].
  csimpl in Hnd. apply NoDup_cons in Hnd as [Ha Hnd].
  apply elem_of_cons in Hx as [->|Hx]; apply elem_of_cons in Hy as [->|Hy].
  - done.
  - destruct Ha. rewrite Hf. by apply list_elem_of_fmap_2.
  - destruct Ha. rewrite <-Hf. by apply list_elem_of_fmap_2.
  - by apply IH.
Qed.

(** The loop, when every grant it asks for is given: it ends well,
    having asked once for every fetched member that does not hold the
    role, in the order fetched, and the members of those ids hold the
    role. *)
Lemma propagate_for_members_granted role fetched :
  ∀ last_update total_processed updated w replies,
  NoDup (Member.id <$> fetched) →
  (∀ m, m ∈ fetched → role ∉ Member.roles m →
        Platform.outcome w (AddRoles (Member.id m) role) = None) →
  ∃ w' said,
    Propagate.for_members role fetched last_update total_processed updated
      w replies = (w', said, None)
    ∧ Platform.outcome w' = Platform.outcome w
    ∧ Platform.calls w'
      = Platform.calls w
        ++ ((λ m, AddRoles (Member.id m) role)
            <$> filter (λ m, role ∉ Member.roles m) fetched)
    ∧ Platform.members w'
      = (λ x, if decide (Member.id x
                         ∈ Member.id
                           <$> filter (λ m, role ∉ Member.roles m) fetched)
              then Platform.with_role role x else x)
        <$> Platform.members w.
Proof.
  induction fetched as [|m rest IH];
    intros last_update total_processed updated w replies Hnd Hgrant.
  - exists w, replies. simpl. rewrite app_nil_r. split; [done|].
    split; [done|]. split; [done|].
    rewrite <-(list_fmap_id (Platform.members w)) at 1.
    apply Forall_fmap_ext_1, Forall_forall. intros x _.
    first [done | case_decide as Hd; [by apply elem_of_nil in Hd|done]].
  - csimpl in Hnd. apply NoDup_cons in Hnd as [Hm Hnd].
    simpl. destruct (decide (role ∈ Member.roles m)) as [Hhas|Hlacks].
    + rewrite bool_decide_eq_false_2 by tauto.
      rewrite filter_cons_False by tauto.
      destruct (Propagate.due updated last_update);
        apply IH; try done; intros m0 Hm0; apply Hgrant; by right.
    + rewrite bool_decide_eq_true_2 by done.
      rewrite filter_cons_True by done.
      unfold Platform.add_roles, Platform.request. simpl.
      rewrite (Hgrant m) by (done || by left). simpl.
      match goal with
      | |- context [Propagate.for_members role rest _ _ _ ?w1 _] =>
          set (w1' := w1)
      end.
      assert (∀ lu rp, ∃ w' said,
        Propagate.for_members role rest lu (S total_processed) (S updated)
          w1' rp = (w', said, None)
        ∧ Platform.outcome w' = Platform.outcome w
        ∧ Platform.calls w'
          = Platform.calls w
            ++ AddRoles (Member.id m) role
               :: ((λ m0, AddRoles (Member.id m0) role)
                   <$> filter (λ m0, role ∉ Member.roles m0) rest)
        ∧ Platform.members w'
          = (λ x, if decide (Member.id x
                             ∈ Member.id m
                               :: (Member.id
                                   <$> filter (λ m0, role ∉ Member.roles m0)
                                         rest))
                  then Platform.with_role role x else x)
            <$> Platform.members w) as Hstep.
      { intros lu rp.
        destruct (IH lu (S total_processed) (S updated) w1' rp Hnd)
          as (w' & said & E & Ho & Hc & Hmem).
        { intros m0 Hm0 Hl. apply Hgrant; [by right|done]. }
        exists w', said. split; [done|]. split; [done|].
        split; [by rewrite Hc; simpl; rewrite <-app_assoc|].
        rewrite Hmem. simpl. rewrite <-list_fmap_compose.
        apply Forall_fmap_ext_1, Forall_forall. intros x _. simpl.
        assert (Member.id m
                ∉ Member.id <$> filter (λ m0, role ∉ Member.roles m0) rest)
          as Hm'.
        { intros (y & Hy & Hin%list_elem_of_filter)%list_elem_of_fmap.
          apply Hm. rewrite Hy. apply list_elem_of_fmap_2. tauto. }
        destruct (decide (Member.id x = Member.id m)) as [Heq|Hne].
        - simpl. rewrite decide_False by (by rewrite Heq).
          rewrite decide_True; [done|]. rewrite Heq. by left.
        - destruct (decide (Member.id x ∈ Member.id <$> filter _ rest))
            as [Hin|Hnin].
          + rewrite decide_True; [done|]. by right.
          + rewrite decide_False; [done|].
            intros [?|?]%elem_of_cons; done. }
      destruct (Propagate.due (S updated) last_update); apply Hstep.
Qed.

(** X16.  In a guild whose configured role exists and whose members
    have distinct ids, when the platform grants each request, the
    command ends well with the message edited to complete, has asked for
    the role exactly once for each member that did not hold it, in the
    order of the members and after one request for the members, and
    leaves every member holding the role, the others untouched. *)
Theorem propagate_gives_role_to_all (g : Guild.t) (w : Platform.t)
    (role : Z) :
  role_id (validation (Guild.config g)) = Some role →
  role ∈ Guild.roles g →
  NoDup (Member.id <$> Platform.members w) →
  (∀ m, m ∈ Platform.members w → role ∉ Member.roles m →
        Platform.outcome w (AddRoles (Member.id m) role) = None) →
  let r := Propagate.validation_propagate g w in
  Propagate.raised r = None
  ∧ last (Propagate.replies r) = Some Propagate.Complete
  ∧ Platform.calls (Propagate.platform r)
    = Platform.calls w
      ++ FetchMembers
         :: ((λ m, AddRoles (Member.id m) role)
             <$> filter (λ m, role ∉ Member.roles m) (Platform.members w))
  ∧ Platform.members (Propagate.platform r)
    = (λ x, if decide (role ∈ Member.roles x) then x
            else Platform.with_role role x)
      <$> Platform.members w
  ∧ Forall (λ x, role ∈ Member.roles x)
           (Platform.members (Propagate.platform r)).
Proof.
  intros Hconfigured Hexists Hnd Hgrant r.
  unfold r, Propagate.validation_propagate, Guild.get_role.
  rewrite Hconfigured. rewrite decide_True by done.
  unfold Platform.fetch_members.
  destruct (propagate_for_members_granted role (Platform.members w) None 0 0
              (Platform.request FetchMembers w).1 [Propagate.Propagating]
              Hnd Hgrant) as (w' & said & -> & Ho & Hc & Hm).
  cbn [Propagate.raised Propagate.replies Propagate.platform].
  split; [done|]. split; [by rewrite last_snoc|].
  split; [by rewrite Hc; simpl; rewrite <-app_assoc|].
  assert (Platform.members w'
          = (λ x, if decide (role ∈ Member.roles x) then x
                  else Platform.with_role role x)
            <$> Platform.members w) as ->.
  { rewrite Hm. simpl. apply Forall_fmap_ext_1, Forall_forall. intros x Hx.
    destruct (decide (role ∈ Member.roles x)) as [Hhas|Hlacks].
    - rewrite decide_False; [done|].
      intros (y & Hy & [Hl Hin]%list_elem_of_filter)%list_elem_of_fmap.
      assert (x = y) as -> by by eapply NoDup_fmap_eq. done.
    - rewrite decide_True; [done|]. apply list_elem_of_fmap_2.
      by apply list_elem_of_filter. }
  split; [done|].
  apply Forall_fmap, Forall_forall. intros x _. simpl.
  destruct (decide (role ∈ Member.roles x)); [done|].
  simpl. apply elem_of_app. right. left.
Qed.

(** The command in the sample guild with two members, one of them
    holding the role: one request for the other, and one edit of the
    progress before the edit to complete. *)
Lemma propagate_gives_role_to_all_witness :
  let r := Propagate.validation_propagate sample_guild
             (sample_platform [sample_trusted; sample_stale] grant_all) in
  Platform.calls (Propagate.platform r) = [FetchMembers; AddRoles 14 7]
  ∧ Propagate.replies r
    = [Propagate.Propagating; Propagate.Ongoing 1; Propagate.Complete].
Proof.
  intros r.
  destruct (propagate_gives_role_to_all sample_guild
              (sample_platform [sample_trusted; sample_stale] grant_all) 7)
    as (_ & _ & Hcalls & _); try reflexivity.
  - set_solver.
  - vm_compute. repeat constructor; set_solver.
  - split; [exact Hcalls|]. vm_compute. done.
Defined.

(** The loop over the members fetched before a given one, when every
    grant it asks for among them is given: it reaches that member having
    asked once for each of them that does not hold the role, and without
    the edit to complete. *)
Lemma propagate_for_members_prefix role before rest :
  ∀ last_update total_processed updated w replies,
  (∀ x, x ∈ before → role ∉ Member.roles x →
        Platform.outcome w (AddRoles (Member.id x) role) = None) →
  ∃ last_update' total_processed' updated' w' said,
    Propagate.for_members role (before ++ rest) last_update total_processed
      updated w replies
    = Propagate.for_members role rest last_update' total_processed' updated'
        w' said
    ∧ Platform.outcome w' = Platform.outcome w
    ∧ Platform.calls w'
      = Platform.calls w
        ++ ((λ x, AddRoles (Member.id x) role)
            <$> filter (λ x, role ∉ Member.roles x) before)
    ∧ (Propagate.Complete ∉ replies → Propagate.Complete ∉ said).
Proof.
  induction before as [|m before IH];
    intros last_update total_processed updated w replies Hgrant.
  - exists last_update, total_processed, updated, w, replies.
    simpl. by rewrite app_nil_r.
  - assert (∀ x, x ∈ before → role ∉ Member.roles x →
              Platform.outcome w (AddRoles (Member.id x) role) = None)
      as Hgrant' by (intros x Hx; apply Hgrant; by right).
    simpl. destruct (decide (role ∈ Member.roles m)) as [Hhas|Hlacks].
    + rewrite bool_decide_eq_false_2 by tauto.
      rewrite filter_cons_False by tauto.
      destruct (Propagate.due updated last_update).
      * destruct (IH (Some updated) (S total_processed) updated w
                    (replies ++ [Propagate.Ongoing (S total_processed)])
                    Hgrant')
          as (lu & tp & up & w' & said & -> & Ho & Hc & Hn).
        exists lu, tp, up, w', said. repeat split; try done.
        intros Hr. apply Hn. intros [?|Hx%list_elem_of_singleton]%elem_of_app;
          done.
      * apply IH; done.
    + rewrite bool_decide_eq_true_2 by done.
      rewrite filter_cons_True by done.
      unfold Platform.add_roles, Platform.request. simpl.
      rewrite (Hgrant m) by (done || by left). simpl.
      match goal with
      | |- context [Propagate.for_members role (before ++ rest) _ _ _ ?w1 _]
        => set (w1' := w1)
      end.
      destruct (Propagate.due (S updated) last_update).
      * destruct (IH (Some (S updated)) (S total_processed) (S updated) w1'
                    (replies ++ [Propagate.Ongoing (S total_processed)])
                    Hgrant')
          as (lu' & tp & up & w' & said & -> & Ho & Hc & Hn).
        exists lu', tp, up, w', said. split; [done|]. split; [done|].
        split; [by rewrite Hc; simpl; rewrite <-app_assoc|].
        intros Hr. apply Hn.
        intros [?|Hx%list_elem_of_singleton]%elem_of_app; done.
      * destruct (IH last_update (S total_processed) (S updated) w1'
                    replies Hgrant')
          as (lu' & tp & up & w' & said & -> & Ho & Hc & Hn).
        exists lu', tp, up, w', said. split; [done|]. split; [done|].
        split; [by rewrite Hc; simpl; rewrite <-app_assoc|]. done.
Qed.

(** X17.  The command stops at the first member for whom the role is
    not granted: it raises the error of that request, never says it is
    complete, and asks nothing for the members that come after. *)
Theorem propagate_stops_at_refusal (g : Guild.t) (w : Platform.t)
    (role : Z) (before after : list Member.t) (m : Member.t)
    (error : Error) :
  role_id (validation (Guild.config g)) = Some role →
  role ∈ Guild.roles g →
  Platform.members w = before ++ m :: after →
  (∀ x, x ∈ before → role ∉ Member.roles x →
        Platform.outcome w (AddRoles (Member.id x) role) = None) →
  role ∉ Member.roles m →
  Platform.outcome w (AddRoles (Member.id m) role) = Some error →
  let r := Propagate.validation_propagate g w in
  Propagate.raised r = Some error
  ∧ (Propagate.Complete ∉ Propagate.replies r)
  ∧ Platform.calls (Propagate.platform r)
    = Platform.calls w
      ++ FetchMembers
         :: ((λ x, AddRoles (Member.id x) role)
             <$> filter (λ x, role ∉ Member.roles x) before)
         ++ [AddRoles (Member.id m) role].
Proof.
  intros Hconfigured Hexists Hmembers Hgrant Hlacks Hrefused r.
  unfold r, Propagate.validation_propagate, Guild.get_role.
  rewrite Hconfigured. rewrite decide_True by done.
  unfold Platform.fetch_members. cbn [fst snd]. rewrite Hmembers.
  destruct (propagate_for_members_prefix role before (m :: after) None 0 0
              (Platform.request FetchMembers w).1 [Propagate.Propagating]
              Hgrant)
    as (lu & tp & up & w' & said & -> & Ho & Hc & Hn).
  simpl. rewrite bool_decide_eq_true_2 by done.
  unfold Platform.add_roles, Platform.request. simpl.
  rewrite Ho. simpl. rewrite Hrefused. simpl.
  split; [done|]. split.
  - apply Hn. intros Hx%list_elem_of_singleton. done.
  - rewrite Hc. simpl. by rewrite <-!app_assoc.
Qed.

(** The command in a guild of two members without the role, on a
    platform that forbids every grant: stopped at the first. *)
Lemma propagate_stops_at_refusal_witness :
  let r := Propagate.validation_propagate sample_guild
             (sample_platform [sample_stale; sample_no_join_time]
                (λ c, match c with
                      | AddRoles _ _ => Some Forbidden
                      | _ => None
                      end)) in
  Propagate.raised r = Some Forbidden
  ∧ Platform.calls (Propagate.platform r) = [FetchMembers; AddRoles 14 7].
Proof.
  intros r.
  destruct (propagate_stops_at_refusal sample_guild
              (sample_platform [sample_stale; sample_no_join_time]
                 (λ c, match c with
                       | AddRoles _ _ => Some Forbidden
                       | _ => None
                       end))
              7 [] [sample_no_join_time] sample_stale Forbidden)
    as (Hraised & _ & Hcalls); try reflexivity.
  - set_solver.
  - intros x Hx. by apply elem_of_nil in Hx.
  - set_solver.
  - split; [exact Hraised|exact Hcalls].
Defined.

(** ** Normalized names *)

Lemma casefold_char_isspace c :
  BannedUsernameRejector.isspace (BannedUsernameRejector.casefold_char c)
  = BannedUsernameRejector.isspace c.
Proof. by destruct c as [[] [] [] [] [] [] [] []]. Qed.

Lemma casefold_char_idem c :
  BannedUsernameRejector.casefold_char
    (BannedUsernameRejector.casefold_char c)
  = BannedUsernameRejector.casefold_char c.
Proof. by destruct c as [[] [] [] [] [] [] [] []]. Qed.

Lemma casefold_idem v :
  BannedUsernameRejector.casefold (BannedUsernameRejector.casefold v)
  = BannedUsernameRejector.casefold v.
Proof.
  induction v as [|c v IH]; simpl; [done|].
  by rewrite casefold_char_idem, IH.
Qed.

Lemma casefold_app a b :
  BannedUsernameRejector.casefold (a +:+ b)
  = BannedUsernameRejector.casefold a +:+ BannedUsernameRejector.casefold b.
Proof.
  induction a as [|c a IH]; [done|].
  rewrite append_cons. simpl. by rewrite IH.
Qed.

Lemma casefold_rev_app a b :
  BannedUsernameRejector.casefold (String.rev_app a b)
  = String.rev_app (BannedUsernameRejector.casefold a)
                   (BannedUsernameRejector.casefold b).
Proof. revert b. induction a as [|c a IH]; intros b; simpl; [done|apply IH]. Qed.

Lemma casefold_concat ws :
  BannedUsernameRejector.casefold (String.concat " " ws)
  = String.concat " " (BannedUsernameRejector.casefold <$> ws).
Proof.
  induction ws as [|w ws IH]; [done|].
  destruct ws as [|w2 ws]; [done|].
  change (String.concat " " (w :: w2 :: ws))
    with (w +:+ " " +:+ String.concat " " (w2 :: ws)).
  change (String.concat " " (BannedUsernameRejector.casefold
                               <$> w :: w2 :: ws))
    with (BannedUsernameRejector.casefold w +:+ " "
          +:+ String.concat " " (BannedUsernameRejector.casefold
                                   <$> w2 :: ws)).
  by rewrite !casefold_app, IH.
Qed.

(** Folding the case of a string folds the case of its words. *)
Lemma split_go_casefold v : ∀ cur,
  BannedUsernameRejector.split_go
    (BannedUsernameRejector.casefold <$> cur)
    (BannedUsernameRejector.casefold v)
  = BannedUsernameRejector.casefold <$> BannedUsernameRejector.split_go cur v.
Proof.
  induction v as [|c v IH]; intros cur; simpl.
  - destruct cur as [acc|]; simpl; [|done].
    unfold String.rev. by rewrite casefold_rev_app.
  - rewrite casefold_char_isspace.
    destruct (BannedUsernameRejector.isspace c).
    + rewrite fmap_app.
      change (@None string) with (BannedUsernameRejector.casefold <$> None).
      rewrite IH. f_equal. destruct cur as [acc|]; simpl; [|done].
      unfold String.rev. by rewrite casefold_rev_app.
    + rewrite <-IH. by destruct cur.
Qed.

Lemma rev_app_rev_app s1 : ∀ s2 s3,
  String.rev_app (String.rev_app s1 s2) s3 = String.rev_app s2 (s1 +:+ s3).
Proof.
  induction s1 as [|c s1 IH]; intros s2 s3; simpl; [done|].
  by rewrite IH.
Qed.

Lemma rev_involutive s : String.rev (String.rev s) = s.
Proof. unfold String.rev. by rewrite rev_app_rev_app, append_nil_r. Qed.

Lemma all_chars_rev_app P s1 : ∀ s2,
  all_chars P s1 = true → all_chars P s2 = true →
  all_chars P (String.rev_app s1 s2) = true.
Proof.
  induction s1 as [|c s1 IH]; intros s2 H1 H2; simpl in *; [done|].
  apply andb_true_iff in H1 as [Hc H1]. apply IH; [done|].
  simpl. by rewrite Hc.
Qed.

Lemma rev_app_not_empty s1 s2 :
  s1 ≠ EmptyString ∨ s2 ≠ EmptyString → String.rev_app s1 s2 ≠ EmptyString.
Proof.
  revert s2. induction s1 as [|c s1 IH]; intros s2 Hne; simpl.
  - by destruct Hne.
  - apply IH. by right.
Qed.

(** What [split] gives are words. *)
Lemma split_go_words v : ∀ cur,
  (∀ acc, cur = Some acc → word acc) →
  Forall word (BannedUsernameRejector.split_go cur v).
Proof.
  assert (∀ cur, (∀ acc, cur = Some acc → word acc) →
            Forall word (option_list (String.rev <$> cur))) as Hcur.
  { intros [acc|] Hacc; simpl; [|constructor].
    destruct (Hacc acc eq_refl) as [Hne Hall].
    repeat constructor.
    - apply rev_app_not_empty. by left.
    - by apply all_chars_rev_app. }
  induction v as [|c v IH]; intros cur Hacc; simpl; [by apply Hcur|].
  destruct (BannedUsernameRejector.isspace c) eqn:Ec.
  - apply Forall_app. split; [by apply Hcur|]. by apply IH.
  - apply IH. intros acc [= <-]. split; [done|]. simpl. rewrite Ec. simpl.
    destruct cur as [acc|]; simpl; [|done]. by apply (Hacc acc).
Qed.

(** Reading a word: it is gathered whole. *)
Lemma split_go_word w : ∀ rest cur,
  w ≠ EmptyString →
  all_chars (λ c, negb (BannedUsernameRejector.isspace c)) w = true →
  BannedUsernameRejector.split_go cur (w +:+ rest)
  = BannedUsernameRejector.split_go
      (Some (String.rev_app w (default EmptyString cur))) rest.
Proof.
  induction w as [|c w IH]; intros rest cur Hne Hall; [done|].
  rewrite append_cons. simpl in *.
  apply andb_true_iff in Hall as [Hc Hall].
  apply negb_true_iff in Hc. rewrite Hc.
  destruct w as [|c2 w]; [done|].
  by rewrite IH.
Qed.

(** Joining words with single spaces and splitting again gives the
    words back. *)
Lemma split_concat ws :
  Forall word ws →
  BannedUsernameRejector.split (String.concat " " ws) = ws.
Proof.
  unfold BannedUsernameRejector.split.
  induction ws as [|w ws IH]; intros Hws; [done|].
  apply Forall_cons in Hws as [[Hne Hall] Hws].
  destruct ws as [|w2 ws].
  - simpl. rewrite <-(append_nil_r w) at 1.
    rewrite split_go_word by done. simpl.
    unfold String.rev. by rewrite rev_app_rev_app, append_nil_r.
  - change (String.concat " " (w :: w2 :: ws))
      with (w +:+ " " +:+ String.concat " " (w2 :: ws)).
    rewrite split_go_word by done.
    change (" " +:+ String.concat " " (w2 :: ws))
      with (String " " (String.concat " " (w2 :: ws))).
    cbn [BannedUsernameRejector.split_go]. 
    change (BannedUsernameRejector.isspace " ") with true. cbn iota.
    rewrite IH by done. simpl.
    unfold String.rev. by rewrite rev_app_rev_app, append_nil_r.
Qed.

(** X18.  Normalizing a name a second time changes nothing, and the case
    of the name does not matter: the normalized form of a name is the
    normalized form of its normalized form and of its case-folded
    form. *)
Theorem normalize_idempotent (val : string) :
  BannedUsernameRejector._normalize (BannedUsernameRejector._normalize val)
  = BannedUsernameRejector._normalize val
  ∧ BannedUsernameRejector._normalize (BannedUsernameRejector.casefold val)
    = BannedUsernameRejector._normalize val
  ∧ Forall word
      (BannedUsernameRejector.split
         (BannedUsernameRejector._normalize val)).
Proof.
  unfold BannedUsernameRejector._normalize.
  assert (Forall word (BannedUsernameRejector.split
                         (BannedUsernameRejector.casefold val))) as Hwords.
  { apply split_go_words. by intros acc. }
  assert (BannedUsernameRejector.casefold
            <$> BannedUsernameRejector.split
                  (BannedUsernameRejector.casefold val)
          = BannedUsernameRejector.split
              (BannedUsernameRejector.casefold val)) as Hfolded.
  { unfold BannedUsernameRejector.split.
    rewrite <-(split_go_casefold (BannedUsernameRejector.casefold val) None).
    simpl. by rewrite casefold_idem. }
  split; [|split].
  - by rewrite casefold_concat, Hfolded, split_concat.
  - by rewrite casefold_idem.
  - by rewrite split_concat.
Qed.

(** ** NameMatchRejector *)

Lemma name_dict_set_keys key value d :
  (NameMatchRejector.dict_set key value d).*1
  = if decide (key ∈ d.*1) then d.*1 else d.*1 ++ [key].
Proof.
  induction d as [|[k v] d IH]; [done|].
  cbn [NameMatchRejector.dict_set]. rewrite !fmap_cons. cbn [fst].
  destruct (decide (k = key)) as [->|Hne].
  - rewrite fmap_cons. cbn [fst]. rewrite decide_True; [done|]. by left.
  - rewrite fmap_cons, IH. cbn [fst].
    destruct (decide (key ∈ d.*1)) as [Hin|Hnin].
    + rewrite decide_True; [done|]. by right.
    + rewrite decide_False; [done|].
      intros [?|?]%elem_of_cons; done.
Qed.

Lemma name_dict_set_values (gf : string → Pattern) key d :
  Forall (λ kv, kv.2 = gf kv.1) d →
  Forall (λ kv, kv.2 = gf kv.1) (NameMatchRejector.dict_set key (gf key) d).
Proof.
  induction d as [|[k v] d IH]; intros Hd; simpl.
  - by repeat constructor.
  - apply Forall_cons in Hd as [Hkv Hd].
    destruct (decide (k = key)) as [->|Hne]; constructor; auto.
Qed.

(** The dict of tokens: its keys are the candidate tokens, each once,
    and each is mapped to its own pattern. *)
Lemma member_names_spec sc gf self members :
  let d := NameMatchRejector.member_names sc gf self members in
  NoDup d.*1
  ∧ (∀ p, p ∈ d.*1 ↔ candidate_token sc self members p)
  ∧ Forall (λ kv, kv.2 = gf kv.1) d.
Proof.
  unfold NameMatchRejector.member_names, candidate_token.
  assert (∀ tokens d,
    NoDup d.*1 → Forall (λ kv, kv.2 = gf kv.1) d →
    let d' := foldl (λ d p, NameMatchRejector.dict_set p (gf p) d) d tokens
    in NoDup d'.*1 ∧ (∀ p, p ∈ d'.*1 ↔ p ∈ d.*1 ∨ p ∈ tokens)
       ∧ Forall (λ kv, kv.2 = gf kv.1) d') as Hinner.
  { induction tokens as [|p0 tokens IH]; intros d Hnd Hv; simpl.
    - split; [done|]. split; [|done]. intros p. split; [by left|].
      intros [?|Hp]; [done|]. by apply elem_of_nil in Hp.
    - destruct (IH (NameMatchRejector.dict_set p0 (gf p0) d))
        as (Hnd' & Hmem & Hv').
      + rewrite name_dict_set_keys. case_decide; [done|].
        apply NoDup_app. split; [done|]. split; [|apply NoDup_singleton].
        intros x Hx ->%list_elem_of_singleton. done.
      + by apply name_dict_set_values.
      + split; [done|]. split; [|done]. intros p. rewrite Hmem.
        rewrite name_dict_set_keys. rewrite elem_of_cons.
        case_decide; [|rewrite elem_of_app, list_elem_of_singleton];
          naive_solver. }
  assert (∀ ms d,
    NoDup d.*1 → Forall (λ kv, kv.2 = gf kv.1) d →
    let d' :=
      foldl (λ d guild_member,
               foldl (λ d p, NameMatchRejector.dict_set p (gf p) d) d
                 (NameMatchRejector._split_name sc self
                    (default EmptyString
                       (NameMatchRejector.member_selector self
                          guild_member))))
            d ms in
    NoDup d'.*1
    ∧ (∀ p, p ∈ d'.*1
            ↔ p ∈ d.*1
              ∨ ∃ guild_member,
                  guild_member ∈ ms
                  ∧ p ∈ NameMatchRejector._split_name sc self
                          (default EmptyString
                             (NameMatchRejector.member_selector self
                                guild_member)))
    ∧ Forall (λ kv, kv.2 = gf kv.1) d') as Houter.
  { induction ms as [|m ms IH]; intros d Hnd Hv; simpl.
    - split; [done|]. split; [|done]. intros p. split; [by left|].
      intros [?|(gm & Hgm & _)]; [done|]. by apply elem_of_nil in Hgm.
    - destruct (Hinner (NameMatchRejector._split_name sc self
                          (default EmptyString
                             (NameMatchRejector.member_selector self m)))
                  d Hnd Hv) as (Hnd1 & Hmem1 & Hv1).
      destruct (IH _ Hnd1 Hv1) as (Hnd2 & Hmem2 & Hv2).
      split; [done|]. split; [|done]. intros p. rewrite Hmem2, Hmem1.
      split.
      + intros [[?|?]|(gm & ? & ?)]; [by left| |].
        * right. exists m. split; [by left|done].
        * right. exists gm. split; [by right|done].
      + intros [?|(gm & [->|?]%elem_of_cons & ?)].
        * left. by left.
        * left. by right.
        * right. by exists gm. }
  destruct (Houter (filter (λ m, NameMatchRejector.filter_func self m = true)
                           members) []) as (Hnd & Hmem & Hv).
  { constructor. }
  { constructor. }
  split; [done|]. split; [|done]. intros p. rewrite Hmem. split.
  - intros [Hp|(gm & [Hf Hgm]%list_elem_of_filter & Hp)];
      [by apply elem_of_nil in Hp|].
    exists gm. split; [done|]. split; [done|].
    unfold NameMatchRejector._split_name in Hp.
    destruct (NameMatchRejector.min_match_length self) as [n|]; [|done].
    by apply list_elem_of_filter in Hp as [? ?].
  - intros (gm & Hgm & Hf & Hp & Hlen). right. exists gm.
    split; [by apply list_elem_of_filter|].
    unfold NameMatchRejector._split_name.
    destruct (NameMatchRejector.min_match_length self) as [n|]; [|done].
    by apply list_elem_of_filter.
Qed.

Lemma name_for_items_recorded self value items : ∀ s,
  recorded (NameMatchRejector.for_items self (Some value) items) s
  = (Rejection ∘ NameMatchRejector.reason self
     <$> (filter (λ kv, re_search kv.2 value = true) items).*1)
  ∧ (run (NameMatchRejector.for_items self (Some value) items) s).2 = None.
Proof.
  induction items as [|[k regex] items IH]; intros s; simpl; [done|].
  destruct (re_search regex value) eqn:E.
  - rewrite filter_cons_True by done. simpl.
    match goal with
    | |- context [run _ ?x] => by destruct (IH x) as [-> ->]
    end.
  - rewrite filter_cons_False by (simpl; by rewrite E). apply IH.
Qed.

(** X19.  A name-match rejector looks for the tokens it takes from the
    members of the guild that pass its filter: the parts of their
    selected names, those shorter than the minimal length left out.  On
    a member whose field has a value it never raises and records one
    reason per distinct token whose pattern is found in the value,
    however many members share the token.  On a member whose field has
    no value it raises as soon as there is one token, and returns
    quietly when there is none. *)
Theorem name_match_rejector_reasons (sc : string → list string)
    (gf : string → Pattern) (members : list Member.t)
    (self : NameMatchRejector.t) (s : State) :
  let v := NameMatchRejector.validate_member sc gf members self in
  match NameMatchRejector.subfield self (member (ctx s)) with
  | Some value =>
      (run v s).2 = None
      ∧ ∃ tokens,
          NoDup tokens
          ∧ (∀ p, p ∈ tokens
                  ↔ candidate_token sc self members p
                    ∧ re_search (gf p) value = true)
          ∧ recorded v s
            = (λ p, Rejection (NameMatchRejector.prefix self
                               +:+ "Matches: `" +:+ p +:+ "`")) <$> tokens
  | None =>
      recorded v s = []
      ∧ ((run v s).2 = None ↔ ∀ p, ¬ candidate_token sc self members p)
  end.
Proof.
  intros v. unfold v, NameMatchRejector.validate_member. cbn [run recorded].
  destruct (member_names_spec sc gf self members) as (Hnd & Hmem & Hv).
  set (d := NameMatchRejector.member_names sc gf self members) in *.
  destruct (NameMatchRejector.subfield self (member (ctx s))) as [value|].
  - destruct (name_for_items_recorded self value d s) as [-> ->].
    split; [done|].
    exists (filter (λ kv, re_search kv.2 value = true) d).*1.
    split; [|split; [|done]].
    + apply (sublist_NoDup _ d.*1); [exact Hnd|].
      apply fmap_sublist, sublist_filter.
    + intros p. rewrite <-Hmem. rewrite !list_elem_of_fmap. split.
      * intros ([k r] & -> & [Hs Hin]%list_elem_of_filter). simpl in *.
        split; [by exists (k, r)|].
        apply (proj1 (Forall_forall _ _) Hv) in Hin. simpl in Hin.
        by rewrite <-Hin.
      * intros [([k r] & -> & Hin) Hs]. exists (k, r). split; [done|].
        apply list_elem_of_filter. split; [|done]. simpl in *.
        apply (proj1 (Forall_forall _ _) Hv) in Hin as Hr. simpl in Hr.
        by rewrite Hr.
  - destruct d as [|[k r] d'] eqn:Ed; simpl.
    + split; [done|]. split; [|done]. intros _ p Hp%Hmem.
      by apply elem_of_nil in Hp.
    + split; [done|]. split; [done|]. intros Hnone.
      destruct (Hnone k). apply Hmem. by left.
Qed.
